(** * FinanceGhost front end: a shallow embedding of its client-side logic

  The dashboard is a React application.  Each component is embedded as a
  record holding its [useState]/[useRef] cells together with the part of
  the platform it talks to (pending [setTimeout] timers, a millisecond
  clock, the sockets constructed so far), and each event handler as a
  function from state to state.  State updaters passed to a setter
  ([setLogs (prev => ...)]) are applied once, in call order. *)

From Stdlib Require Import ZArith Ascii String.
From stdpp Require Import base list strings pretty gmap.


(** ** Platform primitives used by the components *)

Module JS.

(** [String.prototype.startsWith], on the code units of the string. *)
Fixpoint startsWith (s needle : string) {struct needle} : bool :=
  match needle, s with
  | EmptyString, _ => true
  | String _ _, EmptyString => false
  | String a needle', String b s' =>
      if Ascii.eqb a b then startsWith s' needle' else false
  end.

(** [String.prototype.includes]: the needle occurs at some offset. *)
Fixpoint includes (s needle : string) : bool :=
  startsWith s needle ||
  match s with
  | EmptyString => false
  | String _ s' => includes s' needle
  end.

(** [String.prototype.toLowerCase] follows the Unicode case mappings,
    which depend on the context of a letter; the code that calls it
    takes it as a parameter.  What the platform fixes for a text made
    of ASCII characters only is the fold below: A to Z go to a to z and
    every other character stays. *)
Definition lower_ascii (c : ascii) : ascii :=
  let n := nat_of_ascii c in
  if (65 <=? n)%nat && (n <=? 90)%nat then ascii_of_nat (n + 32) else c.

Fixpoint asciiLower (s : string) : string :=
  match s with
  | EmptyString => EmptyString
  | String c s' => String (lower_ascii c) (asciiLower s')
  end.

Fixpoint isAscii (s : string) : bool :=
  match s with
  | EmptyString => true
  | String c s' => (nat_of_ascii c <? 128)%nat && isAscii s'
  end.

(** The platform's [toLowerCase], as far as the proofs rely on it. *)
Definition foldsAscii (toLowerCase : string → string) : Prop :=
  ∀ s, isAscii s = true → toLowerCase s = asciiLower s.

(** Two characters are equal, or are the upper-case and the lower-case
    form of one of the letters A to Z. *)
Definition sameLetter (a b : ascii) : bool :=
  let m := nat_of_ascii a in
  let n := nat_of_ascii b in
  (m =? n)%nat ||
  ((65 <=? m)%nat && (m <=? 90)%nat && (n =? m + 32)%nat) ||
  ((65 <=? n)%nat && (n <=? 90)%nat && (m =? n + 32)%nat).

(** Two texts differ at most in the case of their letters. *)
Fixpoint sameUpToCase (a b : string) : bool :=
  match a, b with
  | EmptyString, EmptyString => true
  | String x a', String y b' => sameLetter x y && sameUpToCase a' b'
  | _, _ => false
  end.


(** The UTF-16 code units of a text of ASCII characters. *)
Fixpoint units (s : string) : list N :=
  match s with
  | EmptyString => []
  | String c s' => N_of_ascii c :: units s'
  end.

(** Truthiness of a string: every string but the empty one. *)
Definition truthy (s : string) : bool :=
  match s with EmptyString => false | String _ _ => true end.

(** [Array.prototype.slice(start)]: a negative [start] counts from the
    end, and both directions are clamped to the array. *)
Definition slice {A} (start : Z) (l : list A) : list A :=
  let len := Z.of_nat (length l) in
  let k := if (start <? 0)%Z then Z.max (len + start) 0 else Z.min start len in
  drop (Z.to_nat k) l.

End JS.

(** ** components/GhostTerminal: the agent log stream viewer *)

Module GhostTerminal.

Record LogEntry := {
  timestamp : string;
  agent : string;
  message : string;
  level : string
}.

(** The payload of a socket message after [JSON.parse], by [data.type]. *)
Inductive ws_data :=
| History (logs : option (list LogEntry))  (* [data.logs] may be absent *)
| Log (data : LogEntry)
| ProcessingStart (filename : string)
| ProcessingComplete
| OtherType.                               (* any other type: ignored *)

(** The only callback ever given to [setTimeout] is [connect]. *)
Inductive callback := Connect.

Record state := {
  logs : list LogEntry;
  isConnected : bool;
  activeAgents : gset string;
  processingTime : option Z;
  processingStartRef : option Z;
  wsRef : option nat;           (* index of the socket held by the ref *)
  sockets : nat;                (* [new WebSocket] calls so far *)
  closeCalls : list nat;        (* sockets on which [close()] was called *)
  timers : list (Z * callback); (* pending timers: due time, callback *)
  clock : Z;                    (* [Date.now()], in milliseconds *)
  isOpen : bool
}.

Definition initial : state :=
  {| logs := []; isConnected := false; activeAgents := ∅;
     processingTime := None; processingStartRef := None; wsRef := None;
     sockets := 0; closeCalls := []; timers := []; clock := 0;
     isOpen := false |}.

Definition updLogs (f : list LogEntry → list LogEntry) (st : state) : state :=
  {| logs := f (logs st); isConnected := isConnected st;
     activeAgents := activeAgents st; processingTime := processingTime st;
     processingStartRef := processingStartRef st; wsRef := wsRef st;
     sockets := sockets st; closeCalls := closeCalls st;
     timers := timers st; clock := clock st; isOpen := isOpen st |}.

Definition setIsConnected (b : bool) (st : state) : state :=
  {| logs := logs st; isConnected := b;
     activeAgents := activeAgents st; processingTime := processingTime st;
     processingStartRef := processingStartRef st; wsRef := wsRef st;
     sockets := sockets st; closeCalls := closeCalls st;
     timers := timers st; clock := clock st; isOpen := isOpen st |}.

Definition updActiveAgents (f : gset string → gset string) (st : state) : state :=
  {| logs := logs st; isConnected := isConnected st;
     activeAgents := f (activeAgents st); processingTime := processingTime st;
     processingStartRef := processingStartRef st; wsRef := wsRef st;
     sockets := sockets st; closeCalls := closeCalls st;
     timers := timers st; clock := clock st; isOpen := isOpen st |}.

Definition setProcessingTime (t : option Z) (st : state) : state :=
  {| logs := logs st; isConnected := isConnected st;
     activeAgents := activeAgents st; processingTime := t;
     processingStartRef := processingStartRef st; wsRef := wsRef st;
     sockets := sockets st; closeCalls := closeCalls st;
     timers := timers st; clock := clock st; isOpen := isOpen st |}.

Definition setProcessingStartRef (t : option Z) (st : state) : state :=
  {| logs := logs st; isConnected := isConnected st;
     activeAgents := activeAgents st; processingTime := processingTime st;
     processingStartRef := t; wsRef := wsRef st;
     sockets := sockets st; closeCalls := closeCalls st;
     timers := timers st; clock := clock st; isOpen := isOpen st |}.

Definition setTimers (q : list (Z * callback)) (st : state) : state :=
  {| logs := logs st; isConnected := isConnected st;
     activeAgents := activeAgents st; processingTime := processingTime st;
     processingStartRef := processingStartRef st; wsRef := wsRef st;
     sockets := sockets st; closeCalls := closeCalls st;
     timers := q; clock := clock st; isOpen := isOpen st |}.

Definition setClock (t : Z) (st : state) : state :=
  {| logs := logs st; isConnected := isConnected st;
     activeAgents := activeAgents st; processingTime := processingTime st;
     processingStartRef := processingStartRef st; wsRef := wsRef st;
     sockets := sockets st; closeCalls := closeCalls st;
     timers := timers st; clock := t; isOpen := isOpen st |}.

Definition setIsOpen (b : bool) (st : state) : state :=
  {| logs := logs st; isConnected := isConnected st;
     activeAgents := activeAgents st; processingTime := processingTime st;
     processingStartRef := processingStartRef st; wsRef := wsRef st;
     sockets := sockets st; closeCalls := closeCalls st;
     timers := timers st; clock := clock st; isOpen := b |}.

(** [setTimeout(cb, delay)]: the timer is due [delay] ms from now. *)
Definition setTimeout (cb : callback) (delay : Z) (st : state) : state :=
  setTimers (timers st ++ [((clock st + delay)%Z, cb)]) st.

(** [addSystemLog(message, level)]; [iso] is [new Date().toISOString()]. *)
Definition addSystemLog (iso message level : string) (st : state) : state :=
  updLogs (λ prev, JS.slice (-199) prev ++
             [{| timestamp := iso; agent := "SYSTEM";
                 message := message; level := level |}]) st.

(** [connect]: [new WebSocket(wsUrl)] stored in [wsRef.current]; the
    four handlers below are installed on every socket constructed. *)
Definition connect (st : state) : state :=
  {| logs := logs st; isConnected := isConnected st;
     activeAgents := activeAgents st; processingTime := processingTime st;
     processingStartRef := processingStartRef st;
     wsRef := Some (sockets st);
     sockets := S (sockets st); closeCalls := closeCalls st;
     timers := timers st; clock := clock st; isOpen := isOpen st |}.

Definition onopen (iso : string) (st : state) : state :=
  addSystemLog iso "Connected to FinanceGhost Neural Network" "success"
    (setIsConnected true st).

(** A number held in [processingStartRef.current] is truthy unless 0. *)
Definition startedAt (st : state) : option Z :=
  match processingStartRef st with
  | Some t => if (t =? 0)%Z then None else Some t
  | None => None
  end.

Definition onmessage (iso : string) (data : ws_data) (st : state) : state :=
  match data with
  | History l => updLogs (λ _, default [] l) st
  | Log log =>
      let st := updLogs (λ prev, JS.slice (-199) prev ++ [log]) st in
      if JS.includes (message log) "Starting" then
        let st := updActiveAgents (λ prev, prev ∪ {[agent log]}) st in
        if String.eqb (agent log) "ORCHESTRATOR" then
          setProcessingTime None (setProcessingStartRef (Some (clock st)) st)
        else st
      else if JS.includes (message log) "complete"
              || JS.includes (message log) "Complete" then
        let st := updActiveAgents (λ prev, prev ∖ {[agent log]}) st in
        if String.eqb (agent log) "ORCHESTRATOR" then
          match startedAt st with
          | Some t0 => setProcessingTime (Some (clock st - t0)%Z) st
          | None => st
          end
        else st
      else st
  | ProcessingStart filename =>
      setProcessingStartRef (Some (clock st))
        (addSystemLog iso ("📥 Processing: " +:+ filename) "info" st)
  | ProcessingComplete =>
      let st := addSystemLog iso "✅ Processing complete" "success" st in
      match startedAt st with
      | Some t0 => setProcessingTime (Some (clock st - t0)%Z) st
      | None => st
      end
  | OtherType => st
  end.

Definition onclose (iso : string) (st : state) : state :=
  setTimeout Connect 3000
    (addSystemLog iso "Connection lost. Reconnecting..." "warning"
       (setIsConnected false st)).

Definition onerror (st : state) : state := setIsConnected false st.

(** The effect body, run when [isOpen] becomes true. *)
Definition effect (st : state) : state :=
  if isOpen st then connect st else st.

(** The effect's cleanup: [wsRef.current.close()] when the ref is set.
    Nothing else is torn down. *)
Definition cleanup (st : state) : state :=
  match wsRef st with
  | Some ws =>
      {| logs := logs st; isConnected := isConnected st;
         activeAgents := activeAgents st; processingTime := processingTime st;
         processingStartRef := processingStartRef st; wsRef := wsRef st;
         sockets := sockets st; closeCalls := closeCalls st ++ [ws];
         timers := timers st; clock := clock st; isOpen := isOpen st |}
  | None => st
  end.

Definition runCallback (cb : callback) (st : state) : state :=
  match cb with Connect => connect st end.

Definition isDue (now : Z) (t : Z * callback) : bool := (t.1 <=? now)%Z.

(** Time passes: the clock advances by [dt] and every timer that has
    come due runs, earliest registration first. *)
Definition tick (dt : Z) (st : state) : state :=
  let now := (clock st + dt)%Z in
  let due := List.filter (isDue now) (timers st) in
  let rest := List.filter (λ t, negb (isDue now t)) (timers st) in
  foldl (λ s t, runCallback t.2 s) (setTimers rest (setClock now st)) due.

Inductive event :=
| Open                                  (* the viewer is shown *)
| Close                                 (* the viewer is hidden *)
| WsOpen (iso : string)
| WsMessage (iso : string) (data : ws_data)
| WsClose (iso : string)
| WsError
| Tick (dt : Z).

Definition step (st : state) (e : event) : state :=
  match e with
  | Open => if isOpen st then st else effect (setIsOpen true st)
  | Close => if isOpen st then setIsOpen false (cleanup st) else st
  | WsOpen iso => onopen iso st
  | WsMessage iso data => onmessage iso data st
  | WsClose iso => onclose iso st
  | WsError => onerror st
  | Tick dt => tick dt st
  end.

Definition run (es : list event) (st : state) : state := foldl step st es.

(** The events of a run of consecutive log messages. *)
Definition logMessages (ms : list (string * LogEntry)) : list event :=
  map (λ m, WsMessage m.1 (Log m.2)) ms.

(** One reconnect round: the socket closes, three seconds pass. *)
Definition reconnectRounds (isos : list string) : list event :=
  concat (map (λ iso, [WsClose iso; Tick 3000]) isos).

End GhostTerminal.

(** ** Promises, as far as the pages use them *)

Module Promise.

(** A settled promise. *)
Inductive settled (A : Type) :=
| Resolved (a : A)
| Rejected (reason : string).
Arguments Resolved {A} a.
Arguments Rejected {A} reason.

Definition isRejected {A} (p : settled A) : bool :=
  match p with Resolved _ => false | Rejected _ => true end.

(** [Promise.all] of two and of three promises: the results when all
    resolve, the first rejection in argument order otherwise. *)
Definition all2 {A B} (p : settled A) (q : settled B) : settled (A * B) :=
  match p, q with
  | Resolved a, Resolved b => Resolved (a, b)
  | Rejected e, _ => Rejected e
  | _, Rejected e => Rejected e
  end.

Definition all3 {A B C} (p : settled A) (q : settled B) (r : settled C)
  : settled (A * B * C) :=
  match p, q, r with
  | Resolved a, Resolved b, Resolved c => Resolved (a, b, c)
  | Rejected e, _, _ => Rejected e
  | _, Rejected e, _ => Rejected e
  | _, _, Rejected e => Rejected e
  end.

End Promise.

(** ** pages/OpsIntelligencePage *)

Module OpsIntelligencePage.
Import Promise.

(** The DTOs, with the fields the page logic reads or shows. *)
Record UrgentWorkItem := {
  id : string;
  client_name : string;
  title : string;
  priority_score : Z;
  suggested_action : string
}.

Record DayBriefing := {
  headline : string;
  key_points : list string;
  full_briefing : string
}.

Record MonthEndDashboard := {
  current_month : string;
  overall_progress : Z;
  ai_briefing : string
}.

(** The body of [GET /firm/urgent]. *)
Record UrgentResponse := { items : list UrgentWorkItem; count : Z }.

Inductive callback :=
| HideCelebration               (* [() => setShowCelebration(false)] *)
| SpeakBriefing (text : string).

Record state := {
  dashboard : option MonthEndDashboard;
  briefing : option DayBriefing;
  urgentItems : list UrgentWorkItem;
  loading : bool;
  error : option string;
  showCelebration : bool;
  confettiRuns : nat;             (* confetti animations started *)
  console : list string;          (* [console.error] lines *)
  timers : list (Z * callback);
  clock : Z
}.

(** The component as first rendered: [loading] starts true. *)
Definition initial : state :=
  {| dashboard := None; briefing := None; urgentItems := [];
     loading := true; error := None; showCelebration := false;
     confettiRuns := 0; console := []; timers := []; clock := 0 |}.

Definition setData (d : option MonthEndDashboard) (b : option DayBriefing)
    (u : list UrgentWorkItem) (st : state) : state :=
  {| dashboard := d; briefing := b; urgentItems := u;
     loading := loading st; error := error st;
     showCelebration := showCelebration st;
     confettiRuns := confettiRuns st; console := console st;
     timers := timers st; clock := clock st |}.

Definition setUrgentItems (u : list UrgentWorkItem) (st : state) : state :=
  setData (dashboard st) (briefing st) u st.

Definition setLoading (b : bool) (st : state) : state :=
  {| dashboard := dashboard st; briefing := briefing st;
     urgentItems := urgentItems st; loading := b; error := error st;
     showCelebration := showCelebration st;
     confettiRuns := confettiRuns st; console := console st;
     timers := timers st; clock := clock st |}.

Definition setError (e : option string) (st : state) : state :=
  {| dashboard := dashboard st; briefing := briefing st;
     urgentItems := urgentItems st; loading := loading st; error := e;
     showCelebration := showCelebration st;
     confettiRuns := confettiRuns st; console := console st;
     timers := timers st; clock := clock st |}.

Definition setShowCelebration (b : bool) (st : state) : state :=
  {| dashboard := dashboard st; briefing := briefing st;
     urgentItems := urgentItems st; loading := loading st;
     error := error st; showCelebration := b;
     confettiRuns := confettiRuns st; console := console st;
     timers := timers st; clock := clock st |}.

Definition startConfetti (st : state) : state :=
  {| dashboard := dashboard st; briefing := briefing st;
     urgentItems := urgentItems st; loading := loading st;
     error := error st; showCelebration := showCelebration st;
     confettiRuns := S (confettiRuns st); console := console st;
     timers := timers st; clock := clock st |}.

Definition consoleError (line : string) (st : state) : state :=
  {| dashboard := dashboard st; briefing := briefing st;
     urgentItems := urgentItems st; loading := loading st;
     error := error st; showCelebration := showCelebration st;
     confettiRuns := confettiRuns st; console := console st ++ [line];
     timers := timers st; clock := clock st |}.

Definition setTimeout (cb : callback) (delay : Z) (st : state) : state :=
  {| dashboard := dashboard st; briefing := briefing st;
     urgentItems := urgentItems st; loading := loading st;
     error := error st; showCelebration := showCelebration st;
     confettiRuns := confettiRuns st; console := console st;
     timers := timers st ++ [((clock st + delay)%Z, cb)];
     clock := clock st |}.

(** [triggerCelebration]: show the banner, start the confetti frames,
    hide the banner five seconds later. *)
Definition triggerCelebration (st : state) : state :=
  setTimeout HideCelebration 5000
    (startConfetti (setShowCelebration true st)).

(** [handleResolveItem(id)]: the updater given to [setUrgentItems]. *)
Definition handleResolveItem (id0 : string) (st : state) : state :=
  let prev := urgentItems st in
  let newItems := List.filter (λ item, negb (String.eqb (id item) id0)) prev in
  let st :=
    if (length newItems =? 0)%nat && (0 <? length prev)%nat
    then triggerCelebration st else st in
  setUrgentItems newItems st.

Definition failureMessage : string :=
  "Failed to load data. Is the backend running?".

Definition briefingText (b : DayBriefing) (u : UrgentResponse) : string :=
  "Good morning. " +:+ headline b +:+ ". You have "
    +:+ pretty (length (items u)) +:+ " urgent items needing attention.".

(** [loadData] up to its [await]. *)
Definition loadDataStart (st : state) : state :=
  setError None (setLoading true st).

(** [loadData] from the [await] on, given how the three requests
    settled: the [try] body, the [catch] and the [finally]. *)
Definition loadDataSettle (d : settled MonthEndDashboard)
    (b : settled DayBriefing) (u : settled UrgentResponse)
    (st : state) : state :=
  let st :=
    match all3 d b u with
    | Resolved (dashboardData, briefingData, urgentData) =>
        let st := setData (Some dashboardData) (Some briefingData)
                    (items urgentData) st in
        if JS.truthy (headline briefingData)
        then setTimeout (SpeakBriefing (briefingText briefingData urgentData))
               1000 st
        else st
    | Rejected err =>
        setError (Some failureMessage)
          (consoleError ("Failed to load ops intelligence: " +:+ err) st)
    end in
  setLoading false st.

Definition loadData (d : settled MonthEndDashboard)
    (b : settled DayBriefing) (u : settled UrgentResponse)
    (st : state) : state :=
  loadDataSettle d b u (loadDataStart st).

End OpsIntelligencePage.

(** ** The copy-to-clipboard button

  [copyToClipboard] has the same three statements on the Vendors,
  Invoices and Emails pages; they are embedded once, over the [copied]
  cell and the platform state the handler touches. *)

Module Clipboard.

Record state := {
  copied : bool;
  clipboard : option string;   (* last text given to [writeText] *)
  timers : list Z;             (* due times of [() => setCopied(false)] *)
  clock : Z
}.

Definition initial : state :=
  {| copied := false; clipboard := None; timers := []; clock := 0 |}.

Definition copyToClipboard (text : string) (st : state) : state :=
  {| copied := true;
     clipboard := Some text;
     timers := timers st ++ [(clock st + 2000)%Z];
     clock := clock st |}.

(** Time passes: every timer that has come due sets [copied] to false. *)
Definition tick (dt : Z) (st : state) : state :=
  let now := (clock st + dt)%Z in
  let due := List.filter (λ t, (t <=? now)%Z) (timers st) in
  let rest := List.filter (λ t, negb (t <=? now)%Z) (timers st) in
  {| copied := match due with [] => copied st | _ :: _ => false end;
     clipboard := clipboard st;
     timers := rest;
     clock := now |}.

Inductive event :=
| Copy (text : string)
| Wait (dt : Z).

Definition step (st : state) (e : event) : state :=
  match e with
  | Copy text => copyToClipboard text st
  | Wait dt => tick dt st
  end.

Definition run (es : list event) (st : state) : state := foldl step st es.

End Clipboard.

(** ** pages/VendorsPage *)

Module VendorsPage.
Import Promise.

Record VendorAnalysis := {
  total_spend : Z;
  total_vendors : Z;
  top_vendors : list string
}.

Record NegotiationOpportunity := {
  vendor_name : string;
  tier : string;
  potential_savings : Z;
  negotiation_points : list string;
  priority : string
}.

Record state := {
  analysis : option VendorAnalysis;
  opportunities : list NegotiationOpportunity;
  loading : bool;
  console : list string;
  copy : Clipboard.state
}.

Definition initial : state :=
  {| analysis := None; opportunities := []; loading := true;
     console := []; copy := Clipboard.initial |}.

Definition setLoading (b : bool) (st : state) : state :=
  {| analysis := analysis st; opportunities := opportunities st;
     loading := b; console := console st; copy := copy st |}.

(** [fetchData]: [analysisRes.data] and
    [opportunitiesRes.data.opportunities] are the two payloads. *)
Definition fetchData (analysisRes : settled VendorAnalysis)
    (opportunitiesRes : settled (list NegotiationOpportunity))
    (st : state) : state :=
  let st := setLoading true st in
  let st :=
    match all2 analysisRes opportunitiesRes with
    | Resolved (a, o) =>
        {| analysis := Some a; opportunities := o;
           loading := loading st; console := console st; copy := copy st |}
    | Rejected err =>
        {| analysis := analysis st; opportunities := opportunities st;
           loading := loading st;
           console := console st ++ ["Failed to fetch vendor data: " +:+ err];
           copy := copy st |}
    end in
  setLoading false st.

Definition copyToClipboard (text : string) (st : state) : state :=
  {| analysis := analysis st; opportunities := opportunities st;
     loading := loading st; console := console st;
     copy := Clipboard.copyToClipboard text (copy st) |}.

End VendorsPage.

(** ** pages/DashboardPage *)

Module DashboardPage.
Import Promise.

(** The two payloads, abridged to a few of their fields. *)
Record DashboardData := {
  total_invoices : Z;
  current_month : string;
  monthly_trend : string
}.

Record CashForecast := {
  critical_payments : Z;
  trend : string;
  confidence : string
}.

Record state := {
  data : option DashboardData;
  cashForecast : option CashForecast;
  loading : bool;
  console : list string
}.

Definition initial : state :=
  {| data := None; cashForecast := None; loading := true; console := [] |}.

Definition setLoading (b : bool) (st : state) : state :=
  {| data := data st; cashForecast := cashForecast st; loading := b;
     console := console st |}.

(** [request.then((r) => r.data).catch(() => null)]: a promise that
    always resolves, with null when the request was rejected. *)
Definition orNull {A} (p : settled A) : settled (option A) :=
  match p with
  | Resolved a => Resolved (Some a)
  | Rejected _ => Resolved None
  end.

(** [fetchData], given how [getDashboard()] and the cash-flow request
    settled. *)
Definition fetchData (dashboard : settled DashboardData)
    (summary : settled CashForecast) (st : state) : state :=
  let st := setLoading true st in
  let st :=
    match all2 dashboard (orNull summary) with
    | Resolved (d, forecast) =>
        {| data := Some d; cashForecast := forecast;
           loading := loading st; console := console st |}
    | Rejected err =>
        {| data := data st; cashForecast := cashForecast st;
           loading := loading st;
           console := console st ++ ["Failed to fetch dashboard: " +:+ err] |}
    end in
  setLoading false st.

End DashboardPage.

(** ** pages/AuditPage *)

Module AuditPage.

(** What [api.get] is called with. *)
Record request := {
  url : string;
  params : gmap string string;
  responseType : option string
}.

Record state := {
  startDate : string;
  endDate : string;
  downloading : bool
}.

(** The [params] object: a key is set only under its own guard. *)
Definition dateParams (st : state) : gmap string string :=
  let params : gmap string string := ∅ in
  let params :=
    if JS.truthy (startDate st)
    then <["start_date" := startDate st]> params else params in
  let params :=
    if JS.truthy (endDate st)
    then <["end_date" := endDate st]> params else params in
  params.

(** The request issued by [downloadAuditPack]. *)
Definition downloadAuditPack (st : state) : request :=
  {| url := "/audit/download";
     params := dateParams st;
     responseType := Some "blob" |}.

(** The request issued by [fetchReport]. *)
Definition fetchReport (st : state) : request :=
  {| url := "/audit/report";
     params := dateParams st;
     responseType := None |}.

End AuditPage.

(** ** JSON values and [JSON.parse] *)

Module JSON.

Local Unset Elimination Schemes.
Inductive value :=
| Null
| Bool (b : bool)
| Number (lexeme : string)
| Str (s : string)
| Array (elements : list value)
| Object (members : list (string * value)).
Local Set Elimination Schemes.

(** The outcome of evaluating an expression that may throw. *)
Inductive completion (A : Type) :=
| Return (a : A)
| Throw (exn : string).
Arguments Return {A} a.
Arguments Throw {A} exn.

(** [try { body } catch { handler }]. *)
Definition tryCatch {A} (body handler : completion A) : completion A :=
  match body with
  | Return a => Return a
  | Throw _ => handler
  end.

Definition andThen {A B} (c : completion A) (k : A → completion B)
  : completion B :=
  match c with
  | Return a => k a
  | Throw e => Throw e
  end.

(** [Array.isArray]. *)
Definition isArray (v : value) : bool :=
  match v with Array _ => true | _ => false end.

(** *** A reader for JSON texts

    [parse] reads the JSON grammar except [\u] escapes inside strings,
    which it rejects; numbers are kept as their lexeme.  The page
    functions below take the platform's [JSON.parse] as an argument,
    and [parse] is the instance they are run with on concrete texts. *)

Definition isWs (c : ascii) : bool :=
  let n := nat_of_ascii c in
  (n =? 32)%nat || (n =? 9)%nat || (n =? 10)%nat || (n =? 13)%nat.

Definition isDigit (c : ascii) : bool :=
  let n := nat_of_ascii c in (48 <=? n)%nat && (n <=? 57)%nat.

Fixpoint skipWs (s : string) : string :=
  match s with
  | String c r => if isWs c then skipWs r else s
  | EmptyString => s
  end.

(** The rest of [s] after the literal [lit], when [s] starts with it. *)
Fixpoint expect (lit s : string) : option string :=
  match lit, s with
  | EmptyString, _ => Some s
  | String a lit', String b s' =>
      if Ascii.eqb a b then expect lit' s' else None
  | String _ _, EmptyString => None
  end.

Fixpoint digits (s : string) : string * string :=
  match s with
  | String c r =>
      if isDigit c then let '(ds, rest) := digits r in (String c ds, rest)
      else (EmptyString, s)
  | EmptyString => (EmptyString, s)
  end.

Definition digits1 (s : string) : option (string * string) :=
  match digits s with
  | (EmptyString, _) => None
  | (ds, rest) => Some (ds, rest)
  end.

(** A number: an optional minus sign, an integer part without a
    leading zero, an optional fraction, an optional exponent. *)
Definition number (s : string) : option (string * string) :=
  let '(sign, s) :=
    match s with
    | String "-" r => ("-", r)
    | _ => (EmptyString, s)
    end in
  match digits1 s with
  | None => None
  | Some (int, s) =>
      match int with
      | String "0" (String _ _) => None
      | _ =>
          let frac :=
            match s with
            | String "." r =>
                match digits1 r with
                | Some (ds, r') => Some ("." +:+ ds, r')
                | None => None
                end
            | _ => Some (EmptyString, s)
            end in
          match frac with
          | None => None
          | Some (fr, s) =>
              let withExp (e : string) (r : string) :=
                let '(sg, r) :=
                  match r with
                  | String "+" r' => ("+", r')
                  | String "-" r' => ("-", r')
                  | _ => (EmptyString, r)
                  end in
                match digits1 r with
                | Some (ds, r') =>
                    Some (sign +:+ int +:+ fr +:+ e +:+ sg +:+ ds, r')
                | None => None
                end in
              match s with
              | String "e" r => withExp "e" r
              | String "E" r => withExp "E" r
              | _ => Some (sign +:+ int +:+ fr, s)
              end
          end
      end
  end.

Definition dquote : ascii := ascii_of_nat 34.

Definition unescape (c : ascii) : option ascii :=
  if Ascii.eqb c dquote then Some dquote else
  match c with
  | "\"%char => Some "\"%char
  | "/"%char => Some "/"%char
  | "b"%char => Some (ascii_of_nat 8)
  | "f"%char => Some (ascii_of_nat 12)
  | "n"%char => Some (ascii_of_nat 10)
  | "r"%char => Some (ascii_of_nat 13)
  | "t"%char => Some (ascii_of_nat 9)
  | _ => None
  end.

(** The characters of a string literal, after its opening quote. *)
Fixpoint chars (s : string) : option (string * string) :=
  match s with
  | EmptyString => None
  | String c r =>
      if Ascii.eqb c dquote then Some (EmptyString, r)
      else if Ascii.eqb c "\" then
        match r with
        | String e r' =>
            match unescape e, chars r' with
            | Some c', Some (cs, rest) => Some (String c' cs, rest)
            | _, _ => None
            end
        | EmptyString => None
        end
      else if (nat_of_ascii c <? 32)%nat then None
      else match chars r with
           | Some (cs, rest) => Some (String c cs, rest)
           | None => None
           end
  end.

Fixpoint parseValue (fuel : nat) (s : string) {struct fuel}
  : option (value * string) :=
  match fuel with
  | O => None
  | S fuel =>
      match skipWs s with
      | EmptyString => None
      | String c r =>
          if Ascii.eqb c "n" then
            match expect "ull" r with Some r' => Some (Null, r') | None => None end
          else if Ascii.eqb c "t" then
            match expect "rue" r with Some r' => Some (Bool true, r') | None => None end
          else if Ascii.eqb c "f" then
            match expect "alse" r with Some r' => Some (Bool false, r') | None => None end
          else if Ascii.eqb c dquote then
            match chars r with Some (cs, r') => Some (Str cs, r') | None => None end
          else if Ascii.eqb c "[" then
            match skipWs r with
            | String "]" r' => Some (Array [], r')
            | r1 =>
                match parseElements fuel r1 with
                | Some (vs, r') => Some (Array vs, r')
                | None => None
                end
            end
          else if Ascii.eqb c "{" then
            match skipWs r with
            | String "}" r' => Some (Object [], r')
            | r1 =>
                match parseMembers fuel r1 with
                | Some (ms, r') => Some (Object ms, r')
                | None => None
                end
            end
          else
            match number (String c r) with
            | Some (lexeme, r') => Some (Number lexeme, r')
            | None => None
            end
      end
  end
with parseElements (fuel : nat) (s : string) {struct fuel}
  : option (list value * string) :=
  match fuel with
  | O => None
  | S fuel =>
      match parseValue fuel s with
      | None => None
      | Some (v, r) =>
          match skipWs r with
          | String "]" r' => Some ([v], r')
          | String "," r' =>
              match parseElements fuel r' with
              | Some (vs, r'') => Some (v :: vs, r'')
              | None => None
              end
          | _ => None
          end
      end
  end
with parseMembers (fuel : nat) (s : string) {struct fuel}
  : option (list (string * value) * string) :=
  match fuel with
  | O => None
  | S fuel =>
      match skipWs s with
      | String q r =>
          if negb (Ascii.eqb q dquote) then None else
          match chars r with
          | None => None
          | Some (key, r) =>
              match skipWs r with
              | String ":" r =>
                  match parseValue fuel r with
                  | None => None
                  | Some (v, r) =>
                      match skipWs r with
                      | String "}" r' => Some ([(key, v)], r')
                      | String "," r' =>
                          match parseMembers fuel r' with
                          | Some (ms, r'') => Some ((key, v) :: ms, r'')
                          | None => None
                          end
                      | _ => None
                      end
                  end
              | _ => None
              end
          end
      | EmptyString => None
      end
  end.

(** Every call consumes a character within two levels, so twice the
    length of the text is fuel enough. *)
Definition parse (text : string) : completion value :=
  match parseValue (2 * String.length text + 2) text with
  | Some (v, rest) =>
      match skipWs rest with
      | EmptyString => Return v
      | String _ _ => Throw "SyntaxError"
      end
  | None => Throw "SyntaxError"
  end.

End JSON.

(** ** pages/InvoicesPage *)

Module InvoicesPage.
Import JSON.

(** The invoice DTO.  The page guards [invoice_number] and
    [vendor_name] with [?.], so they are optional here; the amounts
    and dates, which the table logic never reads, are left out. *)
Record Invoice := {
  id : Z;
  invoice_number : option string;
  vendor_name : option string;
  vendor_gstin : option string;
  status : string;
  errors_json : string;
  items_json : string
}.

(** The value of a guarded test: [None] is [undefined]. *)
Definition truthy (v : option bool) : bool := default false v.

(** [a || b] and [a && b] on such values. *)
Definition orElse (a b : option bool) : option bool :=
  if truthy a then a else b.
Definition andAlso (a b : option bool) : option bool :=
  if truthy a then b else a.

Definition matchesStatus (statusFilter : string) (inv : Invoice)
  : option bool :=
  Some (String.eqb statusFilter "all" || String.eqb (status inv) statusFilter).

Section Table.
(** The platform's [String.prototype.toLowerCase]. *)
Variable toLowerCase : string → string.

(** [field?.toLowerCase().includes(search.toLowerCase())] *)
Definition fieldMatches (field : option string) (search : string)
  : option bool :=
  match field with
  | Some s => Some (JS.includes (toLowerCase s) (toLowerCase search))
  | None => None
  end.

Definition matchesSearch (search : string) (inv : Invoice) : option bool :=
  orElse (fieldMatches (invoice_number inv) search)
         (fieldMatches (vendor_name inv) search).

Definition filteredInvoices (invoices : list Invoice)
    (search statusFilter : string) : list Invoice :=
  List.filter
    (λ inv, truthy (andAlso (matchesSearch search inv)
                            (matchesStatus statusFilter inv)))
    invoices.
End Table.

Section Parsers.
(** The platform's [JSON.parse]. *)
Variable JSON_parse : string → completion value.

Definition parseErrors (errorsJson : string) : completion (list value) :=
  tryCatch
    (andThen (JSON_parse errorsJson) (λ parsed,
       Return (match parsed with Array elements => elements | _ => [] end)))
    (Return []).

Definition parseItems (itemsJson : string) : completion (list value) :=
  tryCatch
    (andThen (JSON_parse itemsJson) (λ parsed,
       Return (match parsed with Array elements => elements | _ => [] end)))
    (Return []).
End Parsers.

Definition copyToClipboard := Clipboard.copyToClipboard.

End InvoicesPage.

(** ** Concrete inputs on which the models are run *)

Module Samples.

Definition iso : string := "2025-01-15T09:30:00.000Z".

Definition entry (who text : string) : GhostTerminal.LogEntry :=
  {| GhostTerminal.timestamp := iso; GhostTerminal.agent := who;
     GhostTerminal.message := text; GhostTerminal.level := "info" |}.

(** A history of three entries, then 205 numbered log messages. *)
Definition history : list GhostTerminal.LogEntry :=
  [entry "ORCHESTRATOR" "Starting invoice processing";
   entry "invoice_agent" "Starting extraction";
   entry "invoice_agent" "Extraction complete"].

Definition messages : list (string * GhostTerminal.LogEntry) :=
  map (λ n, (iso, entry "tax_agent" ("Validating line " +:+ pretty n)))
      (seq 1 205).

(** The viewer with [tax_agent] active. *)
Definition taxActive : GhostTerminal.state :=
  GhostTerminal.onmessage iso
    (GhostTerminal.Log (entry "tax_agent" "Starting GST validation"))
    GhostTerminal.initial.

Definition urgent (key who : string) : OpsIntelligencePage.UrgentWorkItem :=
  {| OpsIntelligencePage.id := key;
     OpsIntelligencePage.client_name := who;
     OpsIntelligencePage.title := "GST filing due";
     OpsIntelligencePage.priority_score := 90;
     OpsIntelligencePage.suggested_action := "File GSTR-3B" |}.

(** The Ops page showing the given urgent items. *)
Definition opsWith (l : list OpsIntelligencePage.UrgentWorkItem)
  : OpsIntelligencePage.state :=
  OpsIntelligencePage.setLoading false
    (OpsIntelligencePage.setUrgentItems l OpsIntelligencePage.initial).

Definition briefing : OpsIntelligencePage.DayBriefing :=
  {| OpsIntelligencePage.headline := "Three filings are due this week";
     OpsIntelligencePage.key_points := [];
     OpsIntelligencePage.full_briefing := "" |}.

Definition dashboardData : DashboardPage.DashboardData :=
  {| DashboardPage.total_invoices := 12;
     DashboardPage.current_month := "2025-01";
     DashboardPage.monthly_trend := "up" |}.

Definition forecast : DashboardPage.CashForecast :=
  {| DashboardPage.critical_payments := 2;
     DashboardPage.trend := "stable";
     DashboardPage.confidence := "medium" |}.

(** The Dashboard page showing an earlier forecast and no dashboard. *)
Definition dashboardWithForecast : DashboardPage.state :=
  {| DashboardPage.data := None;
     DashboardPage.cashForecast := Some forecast;
     DashboardPage.loading := false;
     DashboardPage.console := [] |}.

Definition auditDates (from to : string) : AuditPage.state :=
  {| AuditPage.startDate := from; AuditPage.endDate := to;
     AuditPage.downloading := false |}.

Definition invoice (number vendor : option string) (st : string)
  : InvoicesPage.Invoice :=
  {| InvoicesPage.id := 1;
     InvoicesPage.invoice_number := number;
     InvoicesPage.vendor_name := vendor;
     InvoicesPage.vendor_gstin := None;
     InvoicesPage.status := st;
     InvoicesPage.errors_json := "[]";
     InvoicesPage.items_json := "[]" |}.

End Samples.

(** ** [encodeURIComponent] *)

Module URI.

(** The characters [encodeURIComponent] leaves alone: letters, digits
    and [- _ . ! ~ * ' ( )]. *)
Definition isUnreserved (c : ascii) : bool :=
  let n := nat_of_ascii c in
  ((65 <=? n)%nat && (n <=? 90)%nat) ||
  ((97 <=? n)%nat && (n <=? 122)%nat) ||
  ((48 <=? n)%nat && (n <=? 57)%nat) ||
  (n =? 45)%nat || (n =? 95)%nat || (n =? 46)%nat || (n =? 33)%nat ||
  (n =? 126)%nat || (n =? 42)%nat || (n =? 39)%nat || (n =? 40)%nat ||
  (n =? 41)%nat.

Definition hexDigit (n : nat) : ascii :=
  if (n <? 10)%nat then ascii_of_nat (48 + n) else ascii_of_nat (55 + n).

(** [%XX], upper-case hexadecimal, for one byte. *)
Definition escape (c : ascii) : string :=
  let n := nat_of_ascii c in
  String "%" (String (hexDigit (n / 16)) (String (hexDigit (n mod 16)) EmptyString)).

(** On the UTF-8 bytes of the text: every byte that is not an
    unreserved character is escaped. *)
Fixpoint encodeURIComponent (s : string) : string :=
  match s with
  | EmptyString => EmptyString
  | String c r =>
      if isUnreserved c then String c (encodeURIComponent r)
      else escape c +:+ encodeURIComponent r
  end.

(** The characters of a string. *)
Fixpoint chars (s : string) : list ascii :=
  match s with
  | EmptyString => []
  | String c r => c :: chars r
  end.

(** The characters that separate the parts of a URL or of its query:
    [/ ? # & = +] and the space. *)
Definition isDelimiter (c : ascii) : bool :=
  let n := nat_of_ascii c in
  (n =? 47)%nat || (n =? 63)%nat || (n =? 35)%nat || (n =? 38)%nat ||
  (n =? 61)%nat || (n =? 43)%nat || (n =? 32)%nat.

(** The value of a hexadecimal digit, to read an escape back. *)
Definition hexValue (c : ascii) : nat :=
  let n := nat_of_ascii c in
  if (n <? 58)%nat then n - 48 else n - 55.

End URI.

(** ** components/GhostTerminal: runs of events *)

Module GhostTerminalRuns.
Import GhostTerminal.

(** The event is no history message carrying more than [n] entries. *)
Definition historyWithin (n : nat) (e : event) : bool :=
  match e with
  | WsMessage _ (History (Some l)) => (length l <=? n)%nat
  | _ => true
  end.

Definition isLogMessage (e : event) : bool :=
  match e with
  | WsMessage _ (Log _) => true
  | _ => false
  end.

Definition isWsClose (e : event) : bool :=
  match e with
  | WsClose _ => true
  | _ => false
  end.

(** How often a run shows a viewer that was hidden. *)
Fixpoint shows (open : bool) (es : list event) : nat :=
  match es with
  | [] => 0
  | Open :: es => (if open then 0 else 1) + shows true es
  | Close :: es => shows false es
  | _ :: es => shows open es
  end.

(** [wsRef.current] is the socket constructed last, if any. *)
Definition refHoldsLatest (st : state) : Prop :=
  wsRef st = match sockets st with O => None | S n => Some n end.

(** The sum of the waits of a run of [Tick] events. *)
Definition waits (dts : list Z) : list event := map Tick dts.

Definition total (dts : list Z) : Z := foldr Z.add 0%Z dts.

End GhostTerminalRuns.

(** ** pages/OpsIntelligencePage: the board, the cards, the timers *)

Module OpsBoard.
Import OpsIntelligencePage.

Record ClientWorkflowStatus := {
  client_id : string;
  client_name : string;
  phase : string;
  progress_percent : Z;
  pending_items : list string
}.

Definition phases : list string :=
  ["not_started"; "data_collection"; "reconciliation"; "review";
   "filing_ready"; "complete"].

(** [groupedClients]: one entry per phase of [phases], holding the
    clients in that phase; [clients_status] is
    [dashboard?.clients_status], absent while no dashboard is loaded. *)
Definition groupedClients (clients_status : option (list ClientWorkflowStatus))
  : gmap string (list ClientWorkflowStatus) :=
  foldl
    (λ acc p,
       <[p := match clients_status with
              | Some cs => List.filter (λ c, String.eqb (phase c) p) cs
              | None => []
              end]> acc)
    ∅ phases.

(** What a click on a card button does. *)
Inductive outcome :=
| Resolve (id : string)                   (* [onResolve(item.id)] *)
| WindowOpen (url target : string)
| Nothing.

(** [UrgentActionCard.handleAction]; [hasOnResolve] tells whether the
    optional [onResolve] prop was given. *)
Definition handleAction (item : UrgentWorkItem) (hasOnResolve : bool)
    (action : string) : outcome :=
  if String.eqb action "resolve" && hasOnResolve then Resolve (id item)
  else if String.eqb action "email" then
    WindowOpen ("/emails?client=" +:+
                URI.encodeURIComponent (OpsIntelligencePage.client_name item))
               "_blank"
  else if String.eqb action "fix" then
    WindowOpen ("/invoices?client=" +:+
                URI.encodeURIComponent (OpsIntelligencePage.client_name item))
               "_blank"
  else Nothing.

(** The page together with the texts handed to [speakBriefing]. *)
Record world := {
  page : state;
  utterances : list string
}.

Definition runCallback (cb : callback) (w : world) : world :=
  match cb with
  | HideCelebration =>
      {| page := setShowCelebration false (page w);
         utterances := utterances w |}
  | SpeakBriefing text =>
      {| page := page w; utterances := utterances w ++ [text] |}
  end.

Definition setTimersClock (q : list (Z * callback)) (now : Z) (st : state)
  : state :=
  {| dashboard := dashboard st; briefing := briefing st;
     urgentItems := urgentItems st; loading := loading st;
     error := error st; showCelebration := showCelebration st;
     confettiRuns := confettiRuns st; console := console st;
     timers := q; clock := now |}.

(** Time passes: due timers run, earliest registration first. *)
Definition tick (dt : Z) (w : world) : world :=
  let now := (clock (page w) + dt)%Z in
  let due := List.filter (λ t, (t.1 <=? now)%Z) (timers (page w)) in
  let rest := List.filter (λ t, negb (t.1 <=? now)%Z) (timers (page w)) in
  foldl (λ w t, runCallback t.2 w)
    {| page := setTimersClock rest now (page w); utterances := utterances w |}
    due.

(** The congratulation line is rendered inside the empty-list branch. *)
Definition celebrationVisible (st : state) : bool :=
  (length (urgentItems st) =? 0)%nat && showCelebration st.

End OpsBoard.

(** ** pages/VendorsPage: the charts and the negotiation script *)

Module VendorsCharts.

(** An entry of [analysis.top_vendors].  The name is held as its UTF-16
    code units, which is what [length] and [slice] count; amounts are
    carried, never computed with. *)
Record TopVendor := {
  vendor_name : list N;
  total_spend : Z;
  invoice_count : Z
}.

Record Bar := { name : list N; spend : Z; invoices : Z }.
Record Slice := { label : list N; value : Z }.

Definition COLORS : list string :=
  ["#4285F4"; "#34A853"; "#FBBC05"; "#EA4335"; "#9334E9"; "#00ACC1"].

(** The three full stops of ['...']. *)
Definition dots : list N := [46; 46; 46]%N.

(** [vendor_name.length > 15 ? vendor_name.slice(0, 15) + '...' : vendor_name] *)
Definition barName (vendor : list N) : list N :=
  if (15 <? length vendor)%nat then take 15 vendor ++ dots else vendor.

Definition toBar (v : TopVendor) : Bar :=
  {| name := barName (vendor_name v); spend := total_spend v;
     invoices := invoice_count v |}.

(** [chartData] and [pieData]; [top_vendors] is [analysis?.top_vendors],
    absent while no analysis is loaded. *)
Definition chartData (top_vendors : option (list TopVendor)) : list Bar :=
  match top_vendors with
  | Some vs => map toBar (take 8 vs)
  | None => []
  end.

Definition pieData (top_vendors : option (list TopVendor)) : list Slice :=
  match top_vendors with
  | Some vs =>
      map (λ v, {| label := vendor_name v; value := total_spend v |}) (take 6 vs)
  | None => []
  end.

(** [COLORS[index % COLORS.length]] *)
Definition cellColor (index : nat) : option string :=
  COLORS !! (index mod length COLORS).

End VendorsCharts.

Module VendorsScript.
Import Promise.

Record Script := { email_subject : string; email_body : string }.

Record state := {
  selectedVendor : option string;
  negotiationScript : option Script
}.

(** The path requested by [fetchNegotiationScript(vendorName)]. *)
Definition scriptPath (vendorName : string) : string :=
  "/vendors/" +:+ URI.encodeURIComponent vendorName +:+ "/negotiation-script".

(** [fetchNegotiationScript] once its request has settled. *)
Definition fetchNegotiationScript (vendorName : string)
    (res : settled Script) (st : state) : state :=
  match res with
  | Resolved script =>
      {| selectedVendor := Some vendorName; negotiationScript := Some script |}
  | Rejected _ => st
  end.

(** The modal's close button: [setSelectedVendor(null)]. *)
Definition closeModal (st : state) : state :=
  {| selectedVendor := None; negotiationScript := negotiationScript st |}.

(** [selectedVendor && negotiationScript]: the empty name is falsy. *)
Definition modalShown (st : state) : bool :=
  match selectedVendor st, negotiationScript st with
  | Some v, Some _ => JS.truthy v
  | _, _ => false
  end.

End VendorsScript.

(** ** api: [getEmails] *)

Module Api.

(** The [params] of [getEmails(invoiceId)]:
    [invoiceId ? { invoice_id: invoiceId } : {}]. *)
Definition getEmailsParams (invoiceId : option Z) : gmap string Z :=
  match invoiceId with
  | Some n => if (n =? 0)%Z then ∅ else {[ "invoice_id" := n ]}
  | None => ∅
  end.

End Api.

(** ** pages/InvoicesPage: the detail modal *)

Module InvoiceDetail.
Import Promise InvoicesPage.

Record Email := {
  invoice_id : Z;
  subject : string;
  body : string
}.

Record state := {
  selectedInvoice : option Invoice;
  invoiceEmail : option Email;
  requests : list (gmap string Z)   (* [GET /emails] calls, by their params *)
}.

Definition initial : state :=
  {| selectedInvoice := None; invoiceEmail := None; requests := [] |}.

(** [handleSelectInvoice], up to the request of [fetchInvoiceEmail]. *)
Definition handleSelectInvoice (inv : Invoice) (st : state) : state :=
  {| selectedInvoice := Some inv;
     invoiceEmail := None;
     requests :=
       if String.eqb (status inv) "needs_review"
       then requests st ++ [Api.getEmailsParams (Some (id inv))]
       else requests st |}.

(** [fetchInvoiceEmail] once its request has settled; the payload is
    [result.emails], which may be missing. *)
Definition emailsArrived (res : settled (option (list Email))) (st : state)
  : state :=
  match res with
  | Resolved (Some (first :: _)) =>
      {| selectedInvoice := selectedInvoice st; invoiceEmail := Some first;
         requests := requests st |}
  | _ => st
  end.

(** The modal's close buttons: [setSelectedInvoice(null)]. *)
Definition closeModal (st : state) : state :=
  {| selectedInvoice := None; invoiceEmail := invoiceEmail st;
     requests := requests st |}.

End InvoiceDetail.

(** ** pages/AuditPage: the name of the downloaded file *)

Module AuditDownload.

(** [s.split(sep)[0]]: the part of [s] before the first [sep]. *)
Fixpoint beforeFirst (sep : ascii) (s : string) : string :=
  match s with
  | EmptyString => EmptyString
  | String c r =>
      if Ascii.eqb c sep then EmptyString else String c (beforeFirst sep r)
  end.

(** [`audit_pack_${new Date().toISOString().split('T')[0]}.zip`] *)
Definition downloadName (iso : string) : string :=
  "audit_pack_" +:+ beforeFirst "T" iso +:+ ".zip".

End AuditDownload.

(** ** Further concrete inputs *)

Module MoreSamples.

(** A session: the viewer is shown, receives a history and 205 log
    messages, loses its connection and reconnects. *)
Definition session : list GhostTerminal.event :=
  [GhostTerminal.Open; GhostTerminal.WsOpen Samples.iso;
   GhostTerminal.WsMessage Samples.iso
     (GhostTerminal.History (Some Samples.history))]
  ++ GhostTerminal.logMessages Samples.messages
  ++ [GhostTerminal.WsClose Samples.iso; GhostTerminal.Tick 3000;
      GhostTerminal.WsOpen Samples.iso].

(** A history of 201 entries. *)
Definition longHistory : list GhostTerminal.LogEntry :=
  map (λ n, Samples.entry "invoice_agent" ("Extracted line " +:+ pretty n))
      (seq 1 201).

(** A disconnect and what follows it, without any log message. *)
Definition outage : list GhostTerminal.event :=
  [GhostTerminal.WsError; GhostTerminal.WsClose Samples.iso;
   GhostTerminal.Tick 3000; GhostTerminal.WsOpen Samples.iso;
   GhostTerminal.WsMessage Samples.iso
     (GhostTerminal.History (Some Samples.history))].

(** The viewer some time after the page was loaded. *)
Definition laterViewer : GhostTerminal.state :=
  GhostTerminal.tick 1736933400000 GhostTerminal.initial.

Definition client (key stage : string) : OpsBoard.ClientWorkflowStatus :=
  {| OpsBoard.client_id := key; OpsBoard.client_name := "Client " +:+ key;
     OpsBoard.phase := stage; OpsBoard.progress_percent := 50;
     OpsBoard.pending_items := [] |}.



Definition vendor (who : string) : VendorsCharts.TopVendor :=
  {| VendorsCharts.vendor_name := JS.units who;
     VendorsCharts.total_spend := 120000;
     VendorsCharts.invoice_count := 4 |}.

Definition sixVendors : list VendorsCharts.TopVendor :=
  map vendor ["Reliance Industries Limited"; "Tata Steel"; "Infosys";
              "Wipro"; "Acme Traders"; "Bharat Steel"].

Definition email (n : Z) : InvoiceDetail.Email :=
  {| InvoiceDetail.invoice_id := n; InvoiceDetail.subject := "GSTIN missing";
     InvoiceDetail.body := "Please resend the invoice." |}.

Definition invoiceNo (n : Z) (st : string) : InvoicesPage.Invoice :=
  {| InvoicesPage.id := n;
     InvoicesPage.invoice_number := Some ("INV-" +:+ pretty n);
     InvoicesPage.vendor_name := Some "Acme Traders";
     InvoicesPage.vendor_gstin := None;
     InvoicesPage.status := st;
     InvoicesPage.errors_json := "[]";
     InvoicesPage.items_json := "[]" |}.

End MoreSamples.

(** * Properties *)

(** ** Platform primitives *)

Section JSFacts.
Import JS.

Lemma startsWith_spec s needle :
  startsWith s needle = true ↔ ∃ post, s = needle +:+ post.
Proof.
  revert s. induction needle as [|a needle IH]; intros s; simpl.
  - split; [intros _; exists s; reflexivity | reflexivity].
  - destruct s as [|b s].
    + split; [discriminate | intros [post H]; discriminate H].
    + destruct (Ascii.eqb_spec a b) as [->|Hne].
      * rewrite IH. split; intros [post H]; exists post.
        -- by rewrite H.
        -- by injection H.
      * split; [discriminate | intros [post H]; injection H; congruence].
Qed.

(** [includes] holds exactly when the needle is a contiguous part. *)
Lemma includes_spec s needle :
  includes s needle = true ↔ ∃ pre post, s = pre +:+ needle +:+ post.
Proof.
  induction s as [|c s IH].
  - simpl. rewrite orb_false_r, startsWith_spec. split.
    + intros [post H]. by exists EmptyString, post.
    + intros [pre [post H]]. destruct pre; [by exists post | discriminate H].
  - cbn [includes]. rewrite orb_true_iff, startsWith_spec, IH. split.
    + intros [[post H] | [pre [post H]]].
      * by exists EmptyString, post.
      * exists (String c pre), post. simpl. by rewrite H.
    + intros [pre [post H]]. destruct pre as [|d pre].
      * left. by exists post.
      * right. exists pre, post. simpl in H. by injection H.
Qed.

Lemma slice_last {A} (l : list A) (x : A) :
  slice (-199) l ++ [x] = drop (length (l ++ [x]) - 200) (l ++ [x]).
Proof.
  unfold slice. rewrite length_app. cbn [length].
  change (-199 <? 0)%Z with true. cbn iota.
  replace (Z.to_nat (Z.max (Z.of_nat (length l) + -199) 0))
    with (length l + 1 - 200)%nat by lia.
  rewrite drop_app_le by lia. done.
Qed.

(** Trimming to the last [n] entries commutes with later appends. *)
Lemma drop_window {A} (n : nat) (l r : list A) :
  let kept := drop (length l - n) l in
  drop (length (kept ++ r) - n) (kept ++ r)
  = drop (length (l ++ r) - n) (l ++ r).
Proof.
  cbn zeta. rewrite !length_app, length_drop.
  destruct (decide (length l ≤ n)) as [Hle|Hgt].
  - replace (length l - n)%nat with 0%nat by lia. rewrite drop_0.
    f_equal. lia.
  - replace (length l - (length l - n) + length r - n)%nat
      with (length r) by lia.
    destruct (decide (length r ≤ n)).
    + rewrite !drop_app_le by (rewrite ?length_drop; lia).
      rewrite drop_drop. f_equal. f_equal. lia.
    + rewrite !drop_app_ge by (rewrite ?length_drop; lia).
      rewrite length_drop. f_equal. lia.
Qed.

(** A test that holds of the 256 bytes holds of every byte. *)
Lemma all_bytes (P : ascii → bool) :
  forallb P (map ascii_of_nat (seq 0 256)) = true → ∀ c, P c = true.
Proof.
  intros H c. rewrite forallb_forall in H. apply H.
  rewrite <- (ascii_nat_embedding c). apply in_map, in_seq.
  pose proof (nat_ascii_bounded c). lia.
Qed.

Lemma append_cons c a b : String c a +:+ b = String c (a +:+ b).
Proof. reflexivity. Qed.

Lemma append_assoc (a b c : string) : (a +:+ b) +:+ c = a +:+ (b +:+ c).
Proof.
  induction a as [|x a IH]; [done|]. rewrite !append_cons. by rewrite IH.
Qed.

Lemma asciiLower_append a b :
  asciiLower (a +:+ b) = asciiLower a +:+ asciiLower b.
Proof.
  induction a as [|c a IH]; [done|].
  rewrite append_cons. cbn [asciiLower]. by rewrite IH, append_cons.
Qed.

Lemma isAscii_append a b :
  isAscii (a +:+ b) = isAscii a && isAscii b.
Proof.
  induction a as [|c a IH]; [done|].
  rewrite append_cons. cbn [isAscii]. by rewrite IH, andb_assoc.
Qed.

(** Folding two characters gives the same result exactly when they
    are the same letter up to case. *)
Lemma lower_ascii_sameLetter x y :
  lower_ascii x = lower_ascii y ↔ sameLetter x y = true.
Proof.
  assert (H : Bool.eqb (Ascii.eqb (lower_ascii x) (lower_ascii y))
                       (sameLetter x y) = true).
  { revert y. apply all_bytes. revert x. apply all_bytes.
    vm_compute. reflexivity. }
  apply Bool.eqb_prop in H. rewrite <- H. symmetry. apply Ascii.eqb_eq.
Qed.

Lemma asciiLower_sameUpToCase a b :
  asciiLower a = asciiLower b ↔ sameUpToCase a b = true.
Proof.
  revert b. induction a as [|x a IH]; intros [|y b]; cbn; try done.
  rewrite andb_true_iff, <- IH, <- lower_ascii_sameLetter. split.
  - by intros [= -> ->].
  - by intros [-> ->].
Qed.



End JSFacts.

(** ** The log stream viewer *)

Section GhostTerminalFacts.
Import GhostTerminal.

Lemma logs_onmessage_log iso x st :
  logs (onmessage iso (Log x) st) = JS.slice (-199) (logs st) ++ [x].
Proof.
  unfold onmessage. repeat case_match; reflexivity.
Qed.

Lemma logs_run_logMessages ms st :
  ms ≠ [] →
  logs (run (logMessages ms) st)
  = drop (length (logs st ++ ms.*2) - 200) (logs st ++ ms.*2).
Proof.
  revert st. induction ms as [|m ms IH]; intros st Hne; [done|].
  change (run (logMessages (m :: ms)) st)
    with (run (logMessages ms) (onmessage m.1 (Log m.2) st)).
  destruct ms as [|m' ms].
  - cbn [run logMessages map foldl fmap list_fmap].
    rewrite logs_onmessage_log. apply slice_last.
  - rewrite IH by done. rewrite logs_onmessage_log, slice_last.
    change ((m :: m' :: ms).*2) with ([m.2] ++ (m' :: ms).*2).
    rewrite (app_assoc _ [m.2] ((m' :: ms).*2 : list LogEntry)).
    apply drop_window.
Qed.

Lemma sockets_foldl_connect (due : list (Z * callback)) st :
  sockets (foldl (λ s t, runCallback t.2 s) st due)
  = sockets st + length due.
Proof.
  revert st. induction due as [|[d []] due IH]; intros st; simpl.
  - lia.
  - rewrite IH. simpl. lia.
Qed.

Lemma timers_foldl_connect (due : list (Z * callback)) st :
  timers (foldl (λ s t, runCallback t.2 s) st due) = timers st.
Proof.
  revert st. induction due as [|[d []] due IH]; intros st; simpl; [done|].
  by rewrite IH.
Qed.

Lemma clock_foldl_connect (due : list (Z * callback)) st :
  clock (foldl (λ s t, runCallback t.2 s) st due) = clock st.
Proof.
  revert st. induction due as [|[d []] due IH]; intros st; simpl; [done|].
  by rewrite IH.
Qed.

(** Each timer that comes due constructs one more socket. *)
Lemma sockets_tick dt st :
  sockets (tick dt st)
  = sockets st + length (List.filter (isDue (clock st + dt)) (timers st)).
Proof. unfold tick. by rewrite sockets_foldl_connect. Qed.

Lemma reconnect_round iso st :
  timers st = [] →
  let st' := tick 3000 (onclose iso st) in
  sockets st' = S (sockets st) ∧ timers st' = [] ∧
  clock st' = (clock st + 3000)%Z.
Proof.
  intros Hq. unfold tick.
  rewrite sockets_foldl_connect, timers_foldl_connect, clock_foldl_connect.
  unfold onclose, setTimeout. cbn. rewrite Hq. cbn.
  unfold isDue. cbn. rewrite Z.leb_refl. cbn. repeat split; lia.
Qed.

Lemma reconnect_rounds isos st :
  timers st = [] →
  let st' := run (reconnectRounds isos) st in
  sockets st' = sockets st + length isos ∧ timers st' = [].
Proof.
  revert st. induction isos as [|iso isos IH]; intros st Hq.
  - cbn. split; [lia | done].
  - change (run (reconnectRounds (iso :: isos)) st)
      with (run (reconnectRounds isos) (tick 3000 (onclose iso st))).
    destruct (reconnect_round iso st Hq) as (Hs & Ht & _).
    destruct (IH _ Ht) as [Hs' Ht']. cbn zeta. rewrite Hs', Hs.
    split; [cbn; lia | done].
Qed.

End GhostTerminalFacts.

Section GhostTerminalClaims.
Import GhostTerminal.

(** C1. A history message followed by 205 log messages leaves exactly
    the 200 most recent entries in the buffer, in arrival order (the
    first five of the 205 are gone, whatever the history held); each
    log message appends its entry and keeps the last 200 of the
    result; a history message replaces the buffer by its entries
    (by the empty list when it carries none). *)
Theorem log_buffer_keeps_last_200
    (st : state) (iso : string) (h : option (list LogEntry))
    (ms : list (string * LogEntry)) (x : LogEntry) :
  length ms = 205 →
  let final := run (WsMessage iso (History h) :: logMessages ms) st in
  logs final = drop 5 ms.*2 ∧
  length (logs final) = 200 ∧
  logs (onmessage iso (Log x) st)
    = drop (length (logs st ++ [x]) - 200) (logs st ++ [x]) ∧
  length (logs (onmessage iso (Log x) st)) ≤ 200 ∧
  logs (onmessage iso (History h) st) = default [] h.
Proof.
  intros Hlen final.
  assert (Hfinal : logs final = drop 5 ms.*2).
  { subst final.
    change (run (WsMessage iso (History h) :: logMessages ms) st)
      with (run (logMessages ms) (onmessage iso (History h) st)).
    rewrite logs_run_logMessages by (intros ->; discriminate Hlen).
    cbn [onmessage updLogs logs].
    rewrite drop_app_ge by (rewrite length_app, length_fmap, Hlen; lia).
    f_equal. rewrite length_app, length_fmap, Hlen. lia. }
  assert (Hstep : logs (onmessage iso (Log x) st)
                  = drop (length (logs st ++ [x]) - 200) (logs st ++ [x])).
  { rewrite logs_onmessage_log. apply slice_last. }
  repeat split.
  - exact Hfinal.
  - rewrite Hfinal, length_drop, length_fmap, Hlen. reflexivity.
  - exact Hstep.
  - rewrite Hstep, length_drop. lia.
Qed.

(** C2 (as amended). A log message whose text contains "Starting" adds
    its agent to the active set; one whose text does not contain
    "Starting" but contains "complete" or "Complete" removes its agent;
    any other log message, such as one reading "COMPLETED", leaves the
    set as it was. *)
Theorem active_agents_follow_log_text
    (st : state) (iso : string) (l : LogEntry) :
  let st' := onmessage iso (Log l) st in
  (JS.includes (message l) "Starting" = true →
     activeAgents st' = activeAgents st ∪ {[agent l]} ∧
     agent l ∈ activeAgents st') ∧
  (JS.includes (message l) "Starting" = false →
   JS.includes (message l) "complete" = true
     ∨ JS.includes (message l) "Complete" = true →
     activeAgents st' = activeAgents st ∖ {[agent l]} ∧
     agent l ∉ activeAgents st') ∧
  (JS.includes (message l) "Starting" = false →
   JS.includes (message l) "complete" = false →
   JS.includes (message l) "Complete" = false →
     activeAgents st' = activeAgents st) ∧
  (message l = "COMPLETED" → activeAgents st' = activeAgents st).
Proof.
  assert (Hadd : JS.includes (message l) "Starting" = true →
            activeAgents (onmessage iso (Log l) st)
            = activeAgents st ∪ {[agent l]}).
  { intros Hs. unfold onmessage. rewrite Hs.
    by destruct (String.eqb (agent l) "ORCHESTRATOR"). }
  assert (Hdel : JS.includes (message l) "Starting" = false →
            JS.includes (message l) "complete"
              || JS.includes (message l) "Complete" = true →
            activeAgents (onmessage iso (Log l) st)
            = activeAgents st ∖ {[agent l]}).
  { intros Hs Hc. unfold onmessage. rewrite Hs, Hc.
    destruct (String.eqb (agent l) "ORCHESTRATOR"); [|done].
    by destruct (startedAt _). }
  assert (Hkeep : JS.includes (message l) "Starting" = false →
            JS.includes (message l) "complete"
              || JS.includes (message l) "Complete" = false →
            activeAgents (onmessage iso (Log l) st) = activeAgents st).
  { intros Hs Hc. unfold onmessage. by rewrite Hs, Hc. }
  cbn zeta. split; [|split; [|split]].
  - intros Hs. rewrite (Hadd Hs). split; [done|].
    apply elem_of_union. right. by apply elem_of_singleton.
  - intros Hs Hc. rewrite (Hdel Hs) by (apply orb_true_iff; exact Hc).
    split; [done|]. rewrite elem_of_difference, elem_of_singleton.
    by intros [_ Hn].
  - intros Hs Hc1 Hc2. apply (Hkeep Hs). by rewrite Hc1, Hc2.
  - intros Hm. apply Hkeep; by rewrite Hm.
Qed.

Lemma log_buffer_keeps_last_200_witness :
  length Samples.messages = 205 ∧
  logs (run (WsMessage Samples.iso (History (Some Samples.history))
               :: logMessages Samples.messages) initial)
  = drop 5 Samples.messages.*2.
Proof.
  split; [reflexivity|].
  exact (proj1 (log_buffer_keeps_last_200 initial Samples.iso
                  (Some Samples.history) Samples.messages
                  (Samples.entry "tax_agent" "Validating") eq_refl)).
Defined.

Lemma active_agents_follow_log_text_witness :
  let starting := Samples.entry "tax_agent" "Starting GST validation" in
  let done := Samples.entry "tax_agent" "Validation complete" in
  (JS.includes (message starting) "Starting" = true ∧
   agent starting ∈ activeAgents (onmessage Samples.iso (Log starting) initial)) ∧
  (JS.includes (message done) "Starting" = false ∧
   JS.includes (message done) "complete" = true ∧
   agent done ∉ activeAgents (onmessage Samples.iso (Log done) Samples.taxActive)).
Proof.
  cbn zeta. split.
  - split; [reflexivity|].
    exact (proj2 (proj1 (active_agents_follow_log_text initial Samples.iso
             (Samples.entry "tax_agent" "Starting GST validation")) eq_refl)).
  - split; [reflexivity|]. split; [reflexivity|].
    exact (proj2 (proj1 (proj2 (active_agents_follow_log_text
             Samples.taxActive Samples.iso
             (Samples.entry "tax_agent" "Validation complete")))
             eq_refl (or_introl eq_refl))).
Defined.

(** C2 as stated fails: with [tax_agent] active, a later log message
    for it whose text contains "complete" (and also "Starting") does
    not remove it. *)
Lemma active_agent_not_removed_by_complete :
  let l := Samples.entry "tax_agent" "Starting completeness check" in
  agent l ∈ activeAgents Samples.taxActive ∧
  JS.includes (message l) "complete" = true ∧
  agent l ∈ activeAgents (onmessage Samples.iso (Log l) Samples.taxActive).
Proof.
  cbn zeta. split; [|split; [reflexivity|]].
  - apply elem_of_union. right. by apply elem_of_singleton.
  - apply elem_of_union. right. by apply elem_of_singleton.
Qed.

(** Hiding the viewer cancels no timer. *)
Lemma close_keeps_timers st :
  timers (step st Close) = timers st ∧
  sockets (step st Close) = sockets st ∧
  clock (step st Close) = clock st ∧
  isOpen (step st Close) = false.
Proof.
  unfold step, cleanup. destruct (isOpen st) eqn:Ho; [|done].
  by destruct (wsRef st).
Qed.

Lemma isOpen_foldl_connect (due : list (Z * callback)) st :
  isOpen (foldl (λ s t, runCallback t.2 s) st due) = isOpen st.
Proof.
  revert st. induction due as [|[d []] due IH]; intros st; simpl; [done|].
  by rewrite IH.
Qed.

Lemma isOpen_tick dt st : isOpen (tick dt st) = isOpen st.
Proof. unfold tick. by rewrite isOpen_foldl_connect. Qed.

(** Whenever the viewer is hidden while a reconnect is pending, the
    reconnect still happens once its three seconds are over. *)
Lemma reconnect_survives_close st iso dt1 dt2 :
  timers st = [] → (0 ≤ dt1 < 3000)%Z → (3000 ≤ dt1 + dt2)%Z →
  let st' := run [WsClose iso; Tick dt1; Close; Tick dt2] st in
  sockets st' = S (sockets st) ∧ isOpen st' = false.
Proof.
  intros Hq H1 H2.
  change (run [WsClose iso; Tick dt1; Close; Tick dt2] st)
    with (tick dt2 (step (tick dt1 (onclose iso st)) Close)).
  cbn zeta. set (s1 := tick dt1 (onclose iso st)).
  assert (Hs1 : sockets s1 = sockets st ∧
                timers s1 = [((clock st + 3000)%Z, Connect)] ∧
                clock s1 = (clock st + dt1)%Z).
  { subst s1. unfold tick.
    rewrite sockets_foldl_connect, timers_foldl_connect, clock_foldl_connect.
    unfold onclose, setTimeout. cbn. rewrite Hq. cbn. unfold isDue. cbn.
    replace (clock st + 3000 <=? clock st + dt1)%Z with false
      by (symmetry; apply Z.leb_gt; lia).
    cbn. repeat split; lia. }
  destruct Hs1 as (Hs & Ht & Hc).
  destruct (close_keeps_timers s1) as (Ht' & Hs' & Hc' & Ho').
  rewrite isOpen_tick, sockets_tick, Ht', Hs', Hc', Ht, Hs, Hc.
  split; [|exact Ho'].
  cbn. unfold isDue. cbn.
  replace (clock st + 3000 <=? clock st + dt1 + dt2)%Z with true
    by (symmetry; apply Z.leb_le; lia).
  cbn. lia.
Qed.

(** C3 (violated by the code). The socket closes at time 0 and a
    reconnect is scheduled; the viewer is hidden one second later, and
    the cleanup leaves the timer pending; when the timer fires at
    3000 ms a second socket is constructed although the viewer is
    hidden. *)
Theorem reconnect_fires_after_viewer_closed :
  let scheduled := run [Open; WsOpen Samples.iso; WsClose Samples.iso] initial in
  let hidden := run [Tick 1000; Close] scheduled in
  let fired := run [Tick 2000] hidden in
  sockets scheduled = 1 ∧
  isOpen hidden = false ∧ sockets hidden = 1 ∧
  timers hidden = [(3000%Z, Connect)] ∧
  isOpen fired = false ∧ sockets fired = 2.
Proof. cbn zeta. repeat split. Qed.

(** C4. Every disconnect schedules [connect] exactly 3000 ms ahead,
    whatever the state (however many sockets were tried before, viewer
    shown or hidden).  With no other timer pending, no socket is
    constructed before the 3000 ms have passed and one is constructed
    when they have; and any number of successive disconnects, each
    followed by 3000 ms, yields as many reconnections: the delay does
    not grow and no count stops the retries. *)
Theorem disconnect_reconnects_after_fixed_delay
    (st : state) (iso : string) (dt : Z) (isos : list string) :
  timers (onclose iso st) = timers st ++ [((clock st + 3000)%Z, Connect)] ∧
  (timers st = [] → (0 ≤ dt < 3000)%Z →
     sockets (tick dt (onclose iso st)) = sockets st ∧
     timers (tick dt (onclose iso st)) = [((clock st + 3000)%Z, Connect)]) ∧
  (timers st = [] →
     sockets (tick 3000 (onclose iso st)) = S (sockets st) ∧
     timers (tick 3000 (onclose iso st)) = []) ∧
  (timers st = [] →
     sockets (run (reconnectRounds isos) st) = sockets st + length isos).
Proof.
  split; [reflexivity|]. split; [|split].
  - intros Hq Hdt. unfold tick.
    rewrite sockets_foldl_connect, timers_foldl_connect.
    unfold onclose, setTimeout. cbn. rewrite Hq. cbn. unfold isDue. cbn.
    replace (clock st + 3000 <=? clock st + dt)%Z with false
      by (symmetry; apply Z.leb_gt; lia).
    cbn. split; [lia | done].
  - intros Hq. destruct (reconnect_round iso st Hq) as (Hs & Ht & _).
    by split.
  - intros Hq. by destruct (reconnect_rounds isos st Hq).
Qed.

Lemma disconnect_reconnects_after_fixed_delay_witness :
  timers initial = [] ∧ (0 ≤ 2999 < 3000)%Z ∧
  sockets (tick 2999 (onclose Samples.iso initial)) = 0 ∧
  sockets (tick 3000 (onclose Samples.iso initial)) = 1 ∧
  sockets (run (reconnectRounds (replicate 7 Samples.iso)) initial) = 7.
Proof.
  pose proof (disconnect_reconnects_after_fixed_delay initial Samples.iso
                2999 (replicate 7 Samples.iso)) as (_ & Hearly & Hdue & Hn).
  split; [reflexivity|]. split; [lia|]. split; [|split].
  - exact (proj1 (Hearly eq_refl ltac:(lia))).
  - exact (proj1 (Hdue eq_refl)).
  - exact (Hn eq_refl).
Defined.

End GhostTerminalClaims.

(** ** The Ops Intelligence page *)

Section OpsIntelligenceClaims.
Import Promise OpsIntelligencePage.

(** C5. Resolving the only remaining urgent item empties the list and
    triggers the celebration once: one confetti run, the banner shown,
    one hide timer; resolving again, now on the empty list, triggers
    nothing more.  Resolving on an empty list triggers nothing, and
    neither does a resolve after which items remain. *)
Theorem resolving_last_item_celebrates_once
    (st : state) (id0 : string) (item : UrgentWorkItem) :
  let st' := handleResolveItem id0 st in
  (urgentItems st = [item] → id item = id0 →
     urgentItems st' = [] ∧
     confettiRuns st' = S (confettiRuns st) ∧
     showCelebration st' = true ∧
     timers st' = timers st ++ [((clock st + 5000)%Z, HideCelebration)] ∧
     confettiRuns (handleResolveItem id0 st') = S (confettiRuns st)) ∧
  (urgentItems st = [] →
     urgentItems st' = [] ∧
     confettiRuns st' = confettiRuns st ∧
     showCelebration st' = showCelebration st ∧
     timers st' = timers st) ∧
  (urgentItems st' ≠ [] →
     confettiRuns st' = confettiRuns st ∧
     showCelebration st' = showCelebration st ∧
     timers st' = timers st).
Proof.
  cbn zeta. split; [|split].
  - intros Hl Hid. unfold handleResolveItem. rewrite Hl. cbn.
    rewrite Hid, String.eqb_refl. cbn. done.
  - intros Hl. unfold handleResolveItem. rewrite Hl. cbn. done.
  - unfold handleResolveItem.
    destruct (List.filter _ (urgentItems st)) as [|i l] eqn:Hf.
    + cbn. destruct (urgentItems st); cbn; intros Hne; by destruct Hne.
    + intros _. cbn. done.
Qed.

Lemma resolving_last_item_celebrates_once_witness :
  let st := Samples.opsWith [Samples.urgent "u1" "Acme Traders"] in
  urgentItems st = [Samples.urgent "u1" "Acme Traders"] ∧
  urgentItems (handleResolveItem "u1" st) = [] ∧
  confettiRuns (handleResolveItem "u1" st) = 1 ∧
  confettiRuns (handleResolveItem "u1" (handleResolveItem "u1" st)) = 1.
Proof.
  cbn zeta. split; [reflexivity|].
  destruct (proj1 (resolving_last_item_celebrates_once
              (Samples.opsWith [Samples.urgent "u1" "Acme Traders"]) "u1"
              (Samples.urgent "u1" "Acme Traders")) eq_refl eq_refl)
    as (Hl & Hc & _ & _ & Hagain).
  exact (conj Hl (conj Hc Hagain)).
Defined.

(** C7 as stated fails on the Dashboard load, which also issues its
    requests through a single [Promise.all]: when only the cash-flow
    request is rejected, the dashboard result is applied and the
    earlier forecast is replaced by null. *)
Lemma dashboard_load_applies_partial_result :
  let st := Samples.dashboardWithForecast in
  let st' := DashboardPage.fetchData (Resolved Samples.dashboardData)
               (Rejected "Network Error") st in
  isRejected (Rejected "Network Error" : settled DashboardPage.CashForecast)
    = true ∧
  DashboardPage.data st = None ∧
  DashboardPage.data st' = Some Samples.dashboardData ∧
  DashboardPage.cashForecast st = Some Samples.forecast ∧
  DashboardPage.cashForecast st' = None ∧
  DashboardPage.console st' = [].
Proof. cbn zeta. repeat split. Qed.

(** C7 (as amended). When any request of the Ops Intelligence load or
    of the Vendors load is rejected, the load applies none of its
    results.  On the Ops Intelligence page the dashboard, the briefing
    and the urgent items stay as they were, no briefing is queued for
    speaking, the error is the generic failure message and loading
    ends.  On the Vendors page the analysis and the opportunities stay
    as they were, loading ends, and the failure only reaches the
    console.  The Dashboard load discards everything only when its
    dashboard request is rejected; when the cash-flow request alone is
    rejected it applies the dashboard and a null forecast. *)
Theorem rejected_load_applies_no_result
    (st : state)
    (d : settled MonthEndDashboard) (b : settled DayBriefing)
    (u : settled UrgentResponse)
    (vst : VendorsPage.state)
    (a : settled VendorsPage.VendorAnalysis)
    (o : settled (list VendorsPage.NegotiationOpportunity))
    (dst : DashboardPage.state)
    (dd : settled DashboardPage.DashboardData)
    (cf : settled DashboardPage.CashForecast) :
  (isRejected d || isRejected b || isRejected u = true →
     let st' := loadData d b u st in
     dashboard st' = dashboard st ∧
     briefing st' = briefing st ∧
     urgentItems st' = urgentItems st ∧
     timers st' = timers st ∧
     error st' = Some "Failed to load data. Is the backend running?" ∧
     loading st' = false) ∧
  (isRejected a || isRejected o = true →
     let vst' := VendorsPage.fetchData a o vst in
     VendorsPage.analysis vst' = VendorsPage.analysis vst ∧
     VendorsPage.opportunities vst' = VendorsPage.opportunities vst ∧
     VendorsPage.copy vst' = VendorsPage.copy vst ∧
     VendorsPage.loading vst' = false ∧
     length (VendorsPage.console vst') = S (length (VendorsPage.console vst))) ∧
  (isRejected dd = true →
     let dst' := DashboardPage.fetchData dd cf dst in
     DashboardPage.data dst' = DashboardPage.data dst ∧
     DashboardPage.cashForecast dst' = DashboardPage.cashForecast dst ∧
     DashboardPage.loading dst' = false) ∧
  (∀ payload, dd = Resolved payload → isRejected cf = true →
     let dst' := DashboardPage.fetchData dd cf dst in
     DashboardPage.data dst' = Some payload ∧
     DashboardPage.cashForecast dst' = None ∧
     DashboardPage.console dst' = DashboardPage.console dst ∧
     DashboardPage.loading dst' = false).
Proof.
  split; [|split; [|split]].
  - intros Hrej. unfold loadData, loadDataSettle.
    destruct d, b, u; try discriminate Hrej; cbn; done.
  - intros Hrej. unfold VendorsPage.fetchData.
    destruct a, o; try discriminate Hrej; cbn;
      rewrite ?length_app; cbn; repeat split; lia.
  - intros Hrej. unfold DashboardPage.fetchData.
    destruct dd; [discriminate Hrej|]. by destruct cf.
  - intros payload -> Hrej. unfold DashboardPage.fetchData.
    destruct cf; [discriminate Hrej|]. done.
Qed.

Lemma rejected_load_applies_no_result_witness :
  let st := Samples.opsWith [Samples.urgent "u1" "Acme Traders"] in
  let d := Resolved {| current_month := "2025-01"; overall_progress := 40;
                       ai_briefing := "" |} in
  let b := Resolved Samples.briefing in
  let u : settled UrgentResponse := Rejected "Network Error" in
  isRejected d || isRejected b || isRejected u = true ∧
  urgentItems (loadData d b u st) = [Samples.urgent "u1" "Acme Traders"] ∧
  dashboard (loadData d b u st) = None ∧
  VendorsPage.analysis
    (VendorsPage.fetchData (Rejected "Network Error") (Resolved [])
       VendorsPage.initial) = None ∧
  DashboardPage.cashForecast
    (DashboardPage.fetchData (Rejected "Network Error")
       (Resolved Samples.forecast) Samples.dashboardWithForecast)
  = Some Samples.forecast.
Proof.
  cbn zeta. split; [reflexivity|].
  pose proof (rejected_load_applies_no_result
    (Samples.opsWith [Samples.urgent "u1" "Acme Traders"])
    (Resolved {| current_month := "2025-01"; overall_progress := 40;
                 ai_briefing := "" |})
    (Resolved Samples.briefing) (Rejected "Network Error")
    VendorsPage.initial (Rejected "Network Error") (Resolved [])
    Samples.dashboardWithForecast (Rejected "Network Error")
    (Resolved Samples.forecast))
    as (Hops & Hven & Hdash & _).
  destruct (Hops eq_refl) as (Hd & _ & Hu & _).
  destruct (Hven eq_refl) as (Ha & _).
  destruct (Hdash eq_refl) as (_ & Hf & _).
  exact (conj Hu (conj Hd (conj Ha Hf))).
Defined.

End OpsIntelligenceClaims.

(** ** The Audit page *)

Section AuditClaims.
Import AuditPage.

Lemma truthy_nonempty s : JS.truthy s = true ↔ s ≠ EmptyString.
Proof. destruct s; cbn; split; done. Qed.

Lemma dateParams_start st :
  dateParams st !! "start_date"
  = if JS.truthy (startDate st) then Some (startDate st) else None.
Proof.
  unfold dateParams.
  destruct (JS.truthy (startDate st)), (JS.truthy (endDate st));
    by simplify_map_eq.
Qed.

Lemma dateParams_end st :
  dateParams st !! "end_date"
  = if JS.truthy (endDate st) then Some (endDate st) else None.
Proof.
  unfold dateParams.
  destruct (JS.truthy (startDate st)), (JS.truthy (endDate st));
    by simplify_map_eq.
Qed.

Lemma dateParams_values st k v :
  dateParams st !! k = Some v →
  (k = "start_date" ∧ v = startDate st ∨ k = "end_date" ∧ v = endDate st)
  ∧ v ≠ EmptyString.
Proof.
  unfold dateParams.
  destruct (JS.truthy (startDate st)) eqn:Hs,
           (JS.truthy (endDate st)) eqn:He;
    apply truthy_nonempty in Hs || clear Hs;
    apply truthy_nonempty in He || clear He;
    intros Hk;
    repeat (apply lookup_insert_Some in Hk as [[<- <-]|[_ Hk]]; [tauto|]);
    by rewrite lookup_empty in Hk.
Qed.

(** C6 as stated fails: with a start date and no end date the request
    carries [start_date], although not both dates are non-empty. *)
Lemma lone_start_date_is_sent :
  let st := Samples.auditDates "2025-01-01" "" in
  endDate st = EmptyString ∧
  params (downloadAuditPack st) !! "start_date" = Some "2025-01-01" ∧
  params (downloadAuditPack st) !! "end_date" = None.
Proof. cbn zeta. repeat split. Qed.

(** C6 (as amended). The download request carries [start_date] exactly
    when the start date is non-empty and [end_date] exactly when the
    end date is non-empty, each with its own date as value and whatever
    the other date is; it carries no other parameter.  So both are
    present exactly when both dates are non-empty, a single non-empty
    date is sent alone, and no parameter ever has the empty string as
    its value, in particular when either date is empty. *)
Theorem audit_download_date_params (st : state) (k v : string) :
  let ps := params (downloadAuditPack st) in
  (is_Some (ps !! "start_date") ∧ is_Some (ps !! "end_date")
     ↔ startDate st ≠ EmptyString ∧ endDate st ≠ EmptyString) ∧
  (ps !! "start_date"
     = if JS.truthy (startDate st) then Some (startDate st) else None) ∧
  (ps !! "end_date"
     = if JS.truthy (endDate st) then Some (endDate st) else None) ∧
  (ps !! k = Some v
     ↔ (k = "start_date" ∧ v = startDate st ∧ v ≠ EmptyString) ∨
       (k = "end_date" ∧ v = endDate st ∧ v ≠ EmptyString)) ∧
  (startDate st = EmptyString ∨ endDate st = EmptyString →
     ps !! k ≠ Some EmptyString).
Proof.
  cbn zeta. cbn [downloadAuditPack params].
  split; [|split; [apply dateParams_start |
           split; [apply dateParams_end | split]]].
  - rewrite dateParams_start, dateParams_end, <- !truthy_nonempty.
    destruct (JS.truthy (startDate st)), (JS.truthy (endDate st));
      split; intros [H1 H2]; try done;
      try (by destruct H1); by destruct H2.
  - split.
    + intros Hk. destruct (dateParams_values st k v Hk) as [[[-> ->]|[-> ->]] Hne];
        [left | right]; done.
    + intros [(-> & -> & Hne)|(-> & -> & Hne)].
      * rewrite dateParams_start. apply truthy_nonempty in Hne. by rewrite Hne.
      * rewrite dateParams_end. apply truthy_nonempty in Hne. by rewrite Hne.
  - intros _ Hk. by destruct (dateParams_values st k _ Hk) as [_ Hne].
Qed.

Lemma audit_download_date_params_witness :
  let st := Samples.auditDates "" "2025-03-31" in
  (startDate st = EmptyString ∨ endDate st = EmptyString) ∧
  params (downloadAuditPack st) !! "start_date" ≠ Some EmptyString ∧
  params (downloadAuditPack st) !! "end_date" = Some "2025-03-31".
Proof.
  cbn zeta.
  pose proof (audit_download_date_params
                (Samples.auditDates "" "2025-03-31") "start_date" "")
    as (_ & _ & Hend & _ & Hnone).
  split; [left; reflexivity|].
  split; [exact (Hnone (or_introl eq_refl)) | exact Hend].
Defined.

End AuditClaims.

(** ** The copy button *)

Section ClipboardClaims.
Import Clipboard.

(** C8 as stated fails: copy at 0 ms, copy again at 1000 ms; at
    2000 ms, only 1000 ms after the second copy, the first timer has
    set the indicator back to false. *)
Lemma second_copy_reverts_after_1000ms :
  let second := run [Copy "script"; Wait 1000; Copy "script"] initial in
  copied second = true ∧ clock second = 1000%Z ∧
  copied (run [Wait 999] second) = true ∧
  copied (run [Wait 1000] second) = false ∧
  clock (run [Wait 1000] second) = 2000%Z.
Proof. cbn zeta. repeat split. Qed.

Lemma tick_after_copy text dt st :
  tick dt (copyToClipboard text st)
  = {| copied :=
         if (clock st + 2000 <=? clock st + dt)%Z then false
         else match List.filter (λ t, (t <=? clock st + dt)%Z) (timers st) with
              | [] => true
              | _ :: _ => false
              end;
       clipboard := Some text;
       timers :=
         List.filter (λ t, negb (t <=? clock st + dt)%Z)
           (timers st ++ [(clock st + 2000)%Z]);
       clock := (clock st + dt)%Z |}.
Proof.
  unfold tick, copyToClipboard. cbn. f_equal.
  rewrite List.filter_app. cbn.
  destruct (clock st + 2000 <=? clock st + dt)%Z;
    by destruct (List.filter _ (timers st)).
Qed.

(** C8 (as amended). A copy on either page sets the indicator to true
    and schedules one revert, never cancelled, for exactly 2000 ms
    later, so the indicator is false once 2000 ms have passed.  With
    no earlier revert pending, it stays true until then: it reverts
    after exactly 2000 ms.  A second copy issued [d] ms (less than
    2000) after such a first one does not extend the indicator: it
    stays true until 2000 ms after the first copy and is false from
    then on, that is from [2000 - d] ms after the second copy, whose
    own revert is still pending at that moment. *)
Theorem copied_indicator_reverts
    (st : state) (vst : VendorsPage.state) (text text2 : string)
    (dt d dt2 : Z) :
  copied (InvoicesPage.copyToClipboard text st) = true ∧
  VendorsPage.copy (VendorsPage.copyToClipboard text vst)
    = InvoicesPage.copyToClipboard text (VendorsPage.copy vst) ∧
  timers (InvoicesPage.copyToClipboard text st)
    = timers st ++ [(clock st + 2000)%Z] ∧
  ((2000 ≤ dt)%Z →
     copied (tick dt (InvoicesPage.copyToClipboard text st)) = false) ∧
  (timers st = [] → (0 ≤ dt < 2000)%Z →
     copied (tick dt (InvoicesPage.copyToClipboard text st)) = true) ∧
  (timers st = [] → (0 < d < 2000)%Z →
     let second :=
       InvoicesPage.copyToClipboard text2
         (tick d (InvoicesPage.copyToClipboard text st)) in
     copied second = true ∧
     ((0 ≤ dt2 < 2000 - d)%Z → copied (tick dt2 second) = true) ∧
     ((2000 - d ≤ dt2)%Z → copied (tick dt2 second) = false) ∧
     copied (tick (2000 - d) second) = false ∧
     timers (tick (2000 - d) second) = [(clock st + d + 2000)%Z]).
Proof.
  unfold InvoicesPage.copyToClipboard.
  split; [reflexivity|]. split; [reflexivity|]. split; [reflexivity|].
  split; [|split].
  - intros Hdt. rewrite tick_after_copy. cbn.
    replace (clock st + 2000 <=? clock st + dt)%Z with true
      by (symmetry; apply Z.leb_le; lia).
    done.
  - intros Hq Hdt. rewrite tick_after_copy, Hq. cbn.
    replace (clock st + 2000 <=? clock st + dt)%Z with false
      by (symmetry; apply Z.leb_gt; lia).
    done.
  - intros Hq Hd. cbn zeta. split; [reflexivity|].
    assert (Hfirst : tick d (copyToClipboard text st)
              = {| copied := true; clipboard := Some text;
                   timers := [(clock st + 2000)%Z];
                   clock := (clock st + d)%Z |}).
    { rewrite tick_after_copy, Hq. cbn.
      replace (clock st + 2000 <=? clock st + d)%Z with false
        by (symmetry; apply Z.leb_gt; lia).
      reflexivity. }
    rewrite Hfirst.
    assert (Hlate : ∀ t, (2000 - d ≤ t)%Z →
              copied (tick t (copyToClipboard text2
                {| copied := true; clipboard := Some text;
                   timers := [(clock st + 2000)%Z];
                   clock := (clock st + d)%Z |})) = false).
    { intros t Ht. rewrite tick_after_copy. cbn.
      replace (clock st + 2000 <=? clock st + d + t)%Z with true
        by (symmetry; apply Z.leb_le; lia).
      by destruct (clock st + d + 2000 <=? clock st + d + t)%Z. }
    split; [|split; [exact (Hlate dt2) | split; [apply Hlate; lia|]]].
    + intros Hdt2. rewrite tick_after_copy. cbn.
      replace (clock st + d + 2000 <=? clock st + d + dt2)%Z with false
        by (symmetry; apply Z.leb_gt; lia).
      replace (clock st + 2000 <=? clock st + d + dt2)%Z with false
        by (symmetry; apply Z.leb_gt; lia).
      reflexivity.
    + rewrite tick_after_copy. cbn.
      replace (clock st + d + 2000 <=? clock st + d + (2000 - d))%Z with false
        by (symmetry; apply Z.leb_gt; lia).
      replace (clock st + 2000 <=? clock st + d + (2000 - d))%Z with true
        by (symmetry; apply Z.leb_le; lia).
      reflexivity.
Qed.

Lemma copied_indicator_reverts_witness :
  timers initial = [] ∧ (0 ≤ 1999 < 2000)%Z ∧ (0 < 1500 < 2000)%Z ∧
  (0 ≤ 499 < 2000 - 1500)%Z ∧
  copied (tick 1999 (copyToClipboard "script" initial)) = true ∧
  copied (tick 2000 (copyToClipboard "script" initial)) = false ∧
  copied (tick 499 (copyToClipboard "script"
                      (tick 1500 (copyToClipboard "script" initial)))) = true ∧
  copied (tick 500 (copyToClipboard "script"
                      (tick 1500 (copyToClipboard "script" initial)))) = false.
Proof.
  pose proof (copied_indicator_reverts initial VendorsPage.initial
                "script" "script" 1999 1500 499)
    as (_ & _ & _ & _ & Hheld & Hsecond).
  pose proof (copied_indicator_reverts initial VendorsPage.initial
                "script" "script" 2000 1500 499) as (_ & _ & _ & Hdue & _).
  destruct (Hsecond eq_refl ltac:(lia)) as (_ & Hstill & _ & Hgone & _).
  split; [reflexivity|]. split; [lia|]. split; [lia|]. split; [lia|].
  split; [exact (Hheld eq_refl ltac:(lia))|].
  split; [exact (Hdue ltac:(lia))|].
  split; [exact (Hstill ltac:(lia)) | exact Hgone].
Defined.

End ClipboardClaims.

(** ** The Invoices page *)

Section InvoicesClaims.
Import JSON InvoicesPage.

(** C9. Whatever [JSON.parse] does on a text, [parseErrors] and
    [parseItems] return a list and never throw: the empty list when
    the text does not parse or parses to something other than an
    array, and the elements of the array when it parses to one. *)
Theorem invoice_parsers_never_throw
    (JSON_parse : string → completion value) (text : string) :
  (∃ l, parseErrors JSON_parse text = Return l ∧
        parseItems JSON_parse text = Return l) ∧
  (∀ exn, JSON_parse text = Throw exn →
     parseErrors JSON_parse text = Return [] ∧
     parseItems JSON_parse text = Return []) ∧
  (∀ v, JSON_parse text = Return v → isArray v = false →
     parseErrors JSON_parse text = Return [] ∧
     parseItems JSON_parse text = Return []) ∧
  (∀ elements, JSON_parse text = Return (Array elements) →
     parseErrors JSON_parse text = Return elements ∧
     parseItems JSON_parse text = Return elements).
Proof.
  unfold parseErrors, parseItems, tryCatch, andThen.
  destruct (JSON_parse text) as [v|exn0].
  - split; [eauto|]. split; [discriminate|]. split.
    + intros v' [= <-] Hv. by destruct v.
    + by intros elements [= ->].
  - split; [eauto|]. split; [done|]. split; discriminate.
Qed.

Lemma invoice_parsers_never_throw_witness :
  (parse "not json" = Throw "SyntaxError" ∧
   parseErrors parse "not json" = Return []) ∧
  (parse "null" = Return Null ∧ parseItems parse "null" = Return []) ∧
  (parse "[1, 2]" = Return (Array [Number "1"; Number "2"]) ∧
   parseItems parse "[1, 2]" = Return [Number "1"; Number "2"]).
Proof.
  split; [|split]; (split; [reflexivity|]).
  - exact (proj1 (proj1 (proj2 (invoice_parsers_never_throw parse "not json"))
                    "SyntaxError" eq_refl)).
  - exact (proj2 (proj1 (proj2 (proj2
             (invoice_parsers_never_throw parse "null")))
                    Null eq_refl eq_refl)).
  - exact (proj2 (proj2 (proj2 (proj2
             (invoice_parsers_never_throw parse "[1, 2]")))
                    [Number "1"; Number "2"] eq_refl)).
Defined.

Lemma truthy_orElse a b : truthy (orElse a b) = truthy a || truthy b.
Proof. unfold orElse. by destruct a as [[]|], b as [[]|]. Qed.

Lemma truthy_andAlso a b : truthy (andAlso a b) = truthy a && truthy b.
Proof. unfold andAlso. by destruct a as [[]|], b as [[]|]. Qed.

Lemma truthy_fieldMatches toLowerCase field search :
  truthy (fieldMatches toLowerCase field search) = true
  ↔ ∃ s, field = Some s ∧
         JS.includes (toLowerCase s) (toLowerCase search) = true.
Proof.
  unfold fieldMatches. destruct field as [s|]; cbn.
  - split; [intros H; by exists s | by intros (s' & [= <-] & H)].
  - split; [done | by intros (s' & [=] & _)].
Qed.




End InvoicesClaims.

(** * Further properties of the modelled code *)

(** ** The log stream viewer over whole runs *)

Section GhostTerminalRunFacts.
Import GhostTerminal GhostTerminalRuns.

Lemma length_slice_append {A} (l : list A) (x : A) :
  length (JS.slice (-199) l ++ [x]) ≤ 200.
Proof. rewrite slice_last, length_drop. lia. Qed.

(** Timer callbacks only construct sockets. *)
Lemma foldl_connect_keeps (due : list (Z * callback)) st :
  let st' := foldl (λ s t, runCallback t.2 s) st due in
  logs st' = logs st ∧ activeAgents st' = activeAgents st ∧
  processingTime st' = processingTime st ∧
  processingStartRef st' = processingStartRef st ∧
  closeCalls st' = closeCalls st ∧ isConnected st' = isConnected st.
Proof.
  revert st. induction due as [|[d []] due IH]; intros st; [done|].
  cbn [foldl]. destruct (IH (runCallback (d, Connect).2 st))
    as (H1 & H2 & H3 & H4 & H5 & H6).
  cbn zeta. by rewrite H1, H2, H3, H4, H5, H6.
Qed.

Lemma tick_keeps dt st :
  logs (tick dt st) = logs st ∧ activeAgents (tick dt st) = activeAgents st ∧
  processingTime (tick dt st) = processingTime st ∧
  processingStartRef (tick dt st) = processingStartRef st ∧
  closeCalls (tick dt st) = closeCalls st ∧
  clock (tick dt st) = (clock st + dt)%Z.
Proof.
  unfold tick. rewrite clock_foldl_connect.
  match goal with |- context [foldl ?f ?s ?d] =>
    destruct (foldl_connect_keeps d s) as (H1 & H2 & H3 & H4 & H5 & _) end.
  cbn zeta in *. by rewrite H1, H2, H3, H4, H5.
Qed.

Lemma logs_step_bounded st e :
  historyWithin 200 e = true → length (logs st) ≤ 200 →
  length (logs (step st e)) ≤ 200.
Proof.
  intros He Hst. destruct e as [| |iso|iso data|iso| |dt]; cbn [step].
  - destruct (isOpen st); [done|]. unfold effect. cbn. done.
  - destruct (isOpen st); [|done]. unfold cleanup.
    by destruct (wsRef st).
  - apply length_slice_append.
  - destruct data as [[l|]|x|f| |].
    + cbn in He |- *. by apply Nat.leb_le.
    + cbn. lia.
    + rewrite logs_onmessage_log. apply length_slice_append.
    + cbn. apply length_slice_append.
    + cbn. destruct (startedAt _); apply length_slice_append.
    + done.
  - apply length_slice_append.
  - done.
  - by destruct (tick_keeps dt st) as (-> & _).
Qed.

(** X1. Along any run whose history messages carry at most 200
    entries, a buffer of at most 200 entries never grows beyond 200:
    log messages, connection notices and processing notices are all
    trimmed alike. *)
Theorem log_buffer_never_exceeds_200 (es : list event) (st : state) :
  forallb (historyWithin 200) es = true →
  length (logs st) ≤ 200 →
  length (logs (run es st)) ≤ 200.
Proof.
  revert st. induction es as [|e es IH]; intros st Hes Hst; [done|].
  cbn in Hes. apply andb_true_iff in Hes as [He Hes].
  change (run (e :: es) st) with (run es (step st e)).
  apply IH; [done|]. by apply logs_step_bounded.
Qed.

(** X2. A history message is stored whole, however long: one with more
    than 200 entries leaves more than 200 in the buffer.  The next log
    message brings the buffer back to exactly 200: the last 199 entries
    of the history and the new entry. *)
Theorem oversized_history_is_trimmed_by_next_entry
    (st : state) (iso : string) (l : list LogEntry) (x : LogEntry) :
  200 < length l →
  let loaded := onmessage iso (History (Some l)) st in
  length (logs loaded) = length l ∧
  logs (onmessage iso (Log x) loaded) = drop (length l - 199) l ++ [x] ∧
  length (logs (onmessage iso (Log x) loaded)) = 200.
Proof.
  intros Hl. cbn zeta. split; [done|].
  rewrite logs_onmessage_log.
  change (logs (onmessage iso (History (Some l)) st)) with l.
  assert (Hs : JS.slice (-199) l = drop (length l - 199) l).
  { unfold JS.slice. change (-199 <? 0)%Z with true. cbn iota.
    f_equal. lia. }
  rewrite Hs. split; [done|].
  rewrite length_app, length_drop. cbn [length]. lia.
Qed.

(** X3. Only log messages change the set of active agents: history
    messages, processing notices, connection events, showing or hiding
    the viewer and the passing of time all leave it as it is, so an
    agent marked active stays so across a disconnect. *)
Theorem active_agents_change_only_on_log_messages
    (es : list event) (st : state) :
  forallb (λ e, negb (isLogMessage e)) es = true →
  activeAgents (run es st) = activeAgents st.
Proof.
  revert st. induction es as [|e es IH]; intros st Hes; [done|].
  cbn in Hes. apply andb_true_iff in Hes as [He Hes].
  change (run (e :: es) st) with (run es (step st e)).
  rewrite IH by done.
  destruct e as [| |iso|iso data|iso| |dt]; cbn [step].
  - destruct (isOpen st); [done|]. by unfold effect.
  - destruct (isOpen st); [|done]. unfold cleanup. by destruct (wsRef st).
  - done.
  - destruct data as [[l|]|x|f| |]; try done.
    cbn. by destruct (startedAt _).
  - done.
  - done.
  - by destruct (tick_keeps dt st) as (_ & -> & _).
Qed.

Lemma filter_split_length {A} (f : A → bool) (l : list A) :
  length (List.filter f l) + length (List.filter (λ x, negb (f x)) l)
  = length l.
Proof.
  induction l as [|a l IH]; [done|]. cbn. destruct (f a); cbn; lia.
Qed.

Lemma step_conserves st e :
  sockets (step st e) + length (timers (step st e))
  = sockets st + length (timers st)
    + shows (isOpen st) [e] + (if isWsClose e then 1 else 0).
Proof.
  destruct e as [| |iso|iso data|iso| |dt]; cbn [step shows isWsClose].
  - destruct (isOpen st); cbn; lia.
  - destruct (isOpen st); cbn; [|lia]. unfold cleanup.
    destruct (wsRef st); cbn; lia.
  - cbn. lia.
  - assert (sockets (onmessage iso data st) = sockets st ∧
            timers (onmessage iso data st) = timers st) as [-> ->]; [|lia].
    unfold onmessage. destruct data as [l|x|f| |]; cbn;
      repeat case_match; done.
  - cbn. rewrite length_app. cbn. lia.
  - cbn. lia.
  - rewrite sockets_tick. unfold tick. rewrite timers_foldl_connect. cbn.
    pose proof (filter_split_length (isDue (clock st + dt)) (timers st)).
    lia.
Qed.

Lemma isOpen_step st e :
  isOpen (step st e)
  = match e with Open => true | Close => false | _ => isOpen st end.
Proof.
  destruct e as [| |iso|iso data|iso| |dt]; cbn [step].
  - destruct (isOpen st) eqn:Ho; [done|]. by unfold effect.
  - destruct (isOpen st) eqn:Ho; done.
  - done.
  - unfold onmessage. destruct data as [l|x|f| |]; cbn; repeat case_match; done.
  - done.
  - done.
  - apply isOpen_tick.
Qed.

(** X4. No reconnect is ever lost, and none comes from nowhere: after
    any run, the sockets constructed plus the reconnects still pending
    are those before the run, plus one for each time the hidden viewer
    was shown and one for each disconnect.  Hiding the viewer cancels
    nothing, and a timer that fires becomes exactly one socket. *)
Theorem sockets_and_pending_reconnects_are_conserved
    (es : list event) (st : state) :
  sockets (run es st) + length (timers (run es st))
  = sockets st + length (timers st)
    + shows (isOpen st) es + length (List.filter isWsClose es).
Proof.
  revert st. induction es as [|e es IH]; intros st; [cbn; lia|].
  change (run (e :: es) st) with (run es (step st e)).
  rewrite IH, step_conserves, isOpen_step.
  destruct e; cbn; destruct (isOpen st); cbn; lia.
Qed.

Lemma refHoldsLatest_step st e :
  refHoldsLatest st → refHoldsLatest (step st e).
Proof.
  unfold refHoldsLatest. intros Hst.
  destruct e as [| |iso|iso data|iso| |dt]; cbn [step]; try done.
  - destruct (isOpen st); [done|]. by unfold effect.
  - destruct (isOpen st); [|done]. unfold cleanup.
    destruct (wsRef st) eqn:E; cbn; congruence.
  - assert (sockets (onmessage iso data st) = sockets st ∧
            wsRef (onmessage iso data st) = wsRef st) as [-> ->]; [|done].
    unfold onmessage. destruct data as [l|x|f| |]; cbn;
      repeat case_match; done.
  - unfold tick.
    generalize (List.filter (isDue (clock st + dt)) (timers st)).
    assert (Hs : refHoldsLatest
      (setTimers (List.filter (λ t, negb (isDue (clock st + dt) t)) (timers st))
                 (setClock (clock st + dt)%Z st))) by exact Hst.
    revert Hs. generalize (setTimers
      (List.filter (λ t, negb (isDue (clock st + dt) t)) (timers st))
      (setClock (clock st + dt)%Z st)).
    intros s Hs due. revert s Hs.
    induction due as [|[d []] due IH]; intros s Hs; [done|].
    cbn [foldl]. apply IH. done.
Qed.

(** X5. From the first render on, the ref holds the socket constructed
    last and no other; so hiding the viewer calls [close()] on that one
    socket only, and sockets replaced by a reconnect are never closed
    by the component. *)
Theorem ref_holds_latest_socket (es : list event) :
  let st := run es initial in
  refHoldsLatest st ∧
  (isOpen st = true →
     closeCalls (step st Close)
     = closeCalls st ++ match sockets st with O => [] | S n => [n] end).
Proof.
  cbn zeta.
  assert (Hinv : ∀ es st, refHoldsLatest st → refHoldsLatest (run es st)).
  { clear es. intros es. induction es as [|e es IH]; intros st Hst; [done|].
    change (run (e :: es) st) with (run es (step st e)).
    by apply IH, refHoldsLatest_step. }
  assert (Hst : refHoldsLatest (run es initial)) by (by apply Hinv).
  split; [done|]. intros Ho. cbn [step]. rewrite Ho. unfold cleanup.
  rewrite Hst. destruct (sockets (run es initial)); cbn; [|done].
  by rewrite app_nil_r.
Qed.

Lemma run_waits dts st :
  let st' := run (waits dts) st in
  clock st' = (clock st + total dts)%Z ∧
  processingStartRef st' = processingStartRef st ∧
  processingTime st' = processingTime st.
Proof.
  revert st. induction dts as [|dt dts IH]; intros st.
  - cbn. split; [lia | done].
  - change (run (waits (dt :: dts)) st) with (run (waits dts) (tick dt st)).
    destruct (IH (tick dt st)) as (Hc & Hr & Ht).
    destruct (tick_keeps dt st) as (_ & _ & Ht' & Hr' & _ & Hc').
    cbn zeta in *. rewrite Hc, Hr, Ht, Hc', Hr', Ht'.
    change (total (dt :: dts)) with (dt + total dts)%Z. split; [lia|done].
Qed.

(** X6. The processing time shown is the time that passed between the
    "processing_start" and the "processing_complete" message, provided
    the clock did not read zero at the start (a zero start is taken for
    no start); a "processing_complete" with no start recorded leaves
    the shown time as it was. *)
Theorem processing_time_is_elapsed_time
    (st : state) (iso iso' filename : string) (dts : list Z) :
  (clock st ≠ 0%Z →
     processingTime
       (run (WsMessage iso (ProcessingStart filename)
               :: waits dts ++ [WsMessage iso' ProcessingComplete]) st)
     = Some (total dts)) ∧
  (processingStartRef st = None →
     processingTime (onmessage iso' ProcessingComplete st) = processingTime st).
Proof.
  split.
  - intros Hc.
    change (run (WsMessage iso (ProcessingStart filename)
                   :: waits dts ++ [WsMessage iso' ProcessingComplete]) st)
      with (run (waits dts ++ [WsMessage iso' ProcessingComplete])
              (onmessage iso (ProcessingStart filename) st)).
    unfold run. rewrite foldl_app. cbn [foldl step].
    fold (run (waits dts) (onmessage iso (ProcessingStart filename) st)).
    destruct (run_waits dts (onmessage iso (ProcessingStart filename) st))
      as (Hclk & Href & _).
    set (s := run (waits dts) _) in *. cbn zeta in *.
    cbn [onmessage]. unfold startedAt. cbn [addSystemLog updLogs processingStartRef clock].
    rewrite Href, Hclk. cbn.
    destruct (Z.eqb_spec (clock st) 0); [done|]. cbn. f_equal. lia.
  - intros Hn. cbn [onmessage]. unfold startedAt. cbn. by rewrite Hn.
Qed.

End GhostTerminalRunFacts.

(** ** Encoded names in URLs *)

Section URIFacts.
Import URI.

Lemma chars_append a b : chars (a +:+ b) = chars a ++ chars b.
Proof. induction a as [|c a IH]; [done|]. simpl. by rewrite IH. Qed.

Lemma chars_inj a b : chars a = chars b → a = b.
Proof.
  revert b. induction a as [|c a IH]; intros [|d b] H; try done.
  cbn in H. injection H as -> H. f_equal. by apply IH.
Qed.

Lemma unreserved_not_delimiter c :
  isUnreserved c = true ∨ c = "%"%char → isDelimiter c = false.
Proof.
  intros H.
  assert (Hall : implb (isUnreserved c || Ascii.eqb c "%")
                       (negb (isDelimiter c)) = true).
  { revert c H. intros c _. revert c. apply all_bytes. vm_compute. reflexivity. }
  destruct H as [H| ->]; [|reflexivity].
  rewrite H in Hall. cbn in Hall. by destruct (isDelimiter c).
Qed.

Lemma escape_chars c :
  Forall (λ d, isDelimiter d = false) (chars (escape c)).
Proof.
  assert (Hall : forallb (λ d, negb (isDelimiter d)) (chars (escape c)) = true).
  { revert c. apply all_bytes. vm_compute. reflexivity. }
  apply Forall_forall. intros d Hd. rewrite forallb_forall in Hall.
  apply list_elem_of_In in Hd. specialize (Hall d Hd). by destruct (isDelimiter d).
Qed.

Lemma escape_read_back c :
  ∃ h1 h2, escape c = String "%" (String h1 (String h2 EmptyString)) ∧
           ascii_of_nat (hexValue h1 * 16 + hexValue h2) = c.
Proof.
  eexists _, _. split; [reflexivity|].
  apply Ascii.eqb_eq. revert c. apply all_bytes. vm_compute. reflexivity.
Qed.

Lemma encoded_chars_safe s :
  Forall (λ d, isDelimiter d = false) (chars (encodeURIComponent s)).
Proof.
  induction s as [|c s IH]; [constructor|]. cbn [encodeURIComponent].
  destruct (isUnreserved c) eqn:Hc.
  - cbn. constructor; [|done]. apply unreserved_not_delimiter. by left.
  - rewrite chars_append. apply Forall_app. split; [apply escape_chars | done].
Qed.

Lemma encodeURIComponent_inj s1 s2 :
  encodeURIComponent s1 = encodeURIComponent s2 → s1 = s2.
Proof.
  revert s2. induction s1 as [|c1 s1 IH]; intros [|c2 s2] H.
  - done.
  - cbn [encodeURIComponent] in H. destruct (isUnreserved c2); [discriminate H|].
    destruct (escape_read_back c2) as (h1 & h2 & He & _).
    rewrite He in H. discriminate H.
  - cbn [encodeURIComponent] in H. destruct (isUnreserved c1); [discriminate H|].
    destruct (escape_read_back c1) as (h1 & h2 & He & _).
    rewrite He in H. discriminate H.
  - cbn [encodeURIComponent] in H.
    destruct (isUnreserved c1) eqn:H1, (isUnreserved c2) eqn:H2.
    + injection H as -> H. f_equal. by apply IH.
    + destruct (escape_read_back c2) as (h1 & h2 & He & _).
      rewrite He in H. simpl in H. injection H as -> _. discriminate H1.
    + destruct (escape_read_back c1) as (h1 & h2 & He & _).
      rewrite He in H. simpl in H. injection H as <- _. discriminate H2.
    + destruct (escape_read_back c1) as (h1 & h2 & He1 & Hc1).
      destruct (escape_read_back c2) as (k1 & k2 & He2 & Hc2).
      rewrite He1, He2 in H. simpl in H. injection H as -> -> H.
      rewrite Hc1 in Hc2. subst c2. f_equal. by apply IH.
Qed.

Lemma no_slash_in_safe l :
  Forall (λ d, isDelimiter d = false) l →
  List.filter (Ascii.eqb "/") l = [].
Proof.
  induction 1 as [|d l Hd _ IH]; [done|]. cbn [List.filter].
  destruct (Ascii.eqb_spec "/"%char d) as [<-|_]; [|done].
  vm_compute in Hd. discriminate Hd.
Qed.

(** X7. The path requested for a vendor's negotiation script has
    exactly three slashes, whatever characters the vendor name holds,
    so a name cannot add or drop a path segment; and two different
    names never give the same path. *)
Theorem script_path_keeps_vendor_in_one_segment (v1 v2 : string) :
  length (List.filter (Ascii.eqb "/") (chars (VendorsScript.scriptPath v1))) = 3 ∧
  (VendorsScript.scriptPath v1 = VendorsScript.scriptPath v2 → v1 = v2).
Proof.
  unfold VendorsScript.scriptPath. split.
  - rewrite !chars_append, !List.filter_app.
    rewrite (no_slash_in_safe _ (encoded_chars_safe v1)). reflexivity.
  - intros H. apply encodeURIComponent_inj, chars_inj.
    apply (f_equal chars) in H. rewrite !chars_append in H.
    apply app_inv_head in H. by apply app_inv_tail in H.
Qed.

Lemma script_path_keeps_vendor_in_one_segment_witness :
  VendorsScript.scriptPath "A/B & Co"
    = "/vendors/A%2FB%20%26%20Co/negotiation-script" ∧
  (VendorsScript.scriptPath "A/B & Co" = VendorsScript.scriptPath "A/B & Co"
   → "A/B & Co" = "A/B & Co").
Proof.
  split; [reflexivity|].
  exact (proj2 (script_path_keeps_vendor_in_one_segment "A/B & Co" "A/B & Co")).
Defined.

End URIFacts.

(** ** The Ops Intelligence board, cards and timers *)

Section OpsBoardFacts.
Import Promise OpsIntelligencePage OpsBoard.

Lemma groupedClients_lookup cs p :
  groupedClients cs !! p
  = if bool_decide (p ∈ phases)
    then Some (match cs with
               | Some l => List.filter (λ c, String.eqb (phase c) p) l
               | None => []
               end)
    else None.
Proof.
  unfold groupedClients, phases. cbn [foldl].
  case_bool_decide as Hp.
  - repeat (apply elem_of_cons in Hp as [->|Hp]; [by simplify_map_eq|]).
    by apply elem_of_nil in Hp.
  - repeat (rewrite lookup_insert_ne;
            [|intros <-; apply Hp; repeat constructor]).
    apply lookup_empty.
Qed.

(** X8. On the month-end board a client is shown in the column of a
    phase exactly when that is one of the six phases and the client's
    own phase; a client whose phase is none of the six is shown in no
    column; and while no dashboard is loaded all six columns are
    empty. *)
Theorem board_columns_hold_clients_by_phase
    (cs : list ClientWorkflowStatus) (c : ClientWorkflowStatus)
    (p : string) (column : list ClientWorkflowStatus) :
  (groupedClients (Some cs) !! p = Some column →
     (c ∈ column ↔ c ∈ cs ∧ phase c = p) ∧ p ∈ phases) ∧
  (p ∈ phases → is_Some (groupedClients (Some cs) !! p) ∧
                groupedClients None !! p = Some []) ∧
  (phase c ∉ phases →
     ∀ q col, groupedClients (Some cs) !! q = Some col → c ∉ col).
Proof.
  split; [|split].
  - rewrite groupedClients_lookup. case_bool_decide as Hp; [|done].
    intros [= <-]. split; [|done].
    rewrite !list_elem_of_In, filter_In, String.eqb_eq. done.
  - intros Hp. rewrite !groupedClients_lookup.
    rewrite bool_decide_eq_true_2 by done. eauto.
  - intros Hc q col. rewrite groupedClients_lookup.
    case_bool_decide as Hq; [|done]. intros [= <-].
    rewrite list_elem_of_In, filter_In, String.eqb_eq.
    intros [_ Hq']. apply Hc. by rewrite Hq'.
Qed.

(** X9. Resolving an id removes from the list exactly the items with
    that id and keeps the others in their order; resolving an id that
    no item has changes nothing at all, and starts no celebration even
    on an empty list. *)
Theorem resolve_removes_exactly_that_id
    (st : state) (id0 : string) (item : UrgentWorkItem) :
  (item ∈ urgentItems (handleResolveItem id0 st)
     ↔ item ∈ urgentItems st ∧ id item ≠ id0) ∧
  urgentItems (handleResolveItem id0 st) `sublist_of` urgentItems st ∧
  ((∀ i, i ∈ urgentItems st → id i ≠ id0) → handleResolveItem id0 st = st).
Proof.
  assert (Hitems : urgentItems (handleResolveItem id0 st)
            = List.filter (λ i, negb (String.eqb (id i) id0)) (urgentItems st)).
  { unfold handleResolveItem. by case_match. }
  split; [|split].
  - rewrite Hitems, !list_elem_of_In, filter_In, negb_true_iff, String.eqb_neq.
    done.
  - rewrite Hitems. generalize (urgentItems st). intros l.
    induction l as [|a l IH]; [done|]. cbn.
    destruct (negb _); by constructor.
  - intros Hno.
    assert (Hsame : List.filter (λ i, negb (String.eqb (id i) id0)) (urgentItems st)
                    = urgentItems st).
    { revert Hno. generalize (urgentItems st). intros l Hl.
      induction l as [|a l IH]; [done|]. cbn.
      assert (Ha : String.eqb (id a) id0 = false)
        by (apply String.eqb_neq, Hl; constructor).
      rewrite Ha. cbn. f_equal. apply IH. intros i Hi. apply Hl.
      by constructor. }
    unfold handleResolveItem. rewrite Hsame.
    destruct st as [d b u l e sc cr co tm ck]. cbn in *.
    destruct u; cbn; reflexivity.
Qed.

Lemma resolve_removes_exactly_that_id_witness :
  let st := Samples.opsWith [Samples.urgent "u1" "Acme Traders";
                             Samples.urgent "u2" "Bharat Steel"] in
  (∀ i, i ∈ urgentItems st → id i ≠ "u9") ∧
  handleResolveItem "u9" st = st ∧
  urgentItems (handleResolveItem "u1" st) = [Samples.urgent "u2" "Bharat Steel"].
Proof.
  cbn zeta.
  assert (Hno : ∀ i, i ∈ urgentItems (Samples.opsWith
            [Samples.urgent "u1" "Acme Traders"; Samples.urgent "u2" "Bharat Steel"])
            → id i ≠ "u9").
  { intros i Hi. cbn in Hi.
    apply elem_of_cons in Hi as [->|Hi]; [discriminate|].
    apply elem_of_cons in Hi as [->|Hi]; [discriminate|].
    by apply elem_of_nil in Hi. }
  split; [exact Hno|]. split; [|reflexivity].
  exact (proj2 (proj2 (resolve_removes_exactly_that_id _ "u9"
           (Samples.urgent "u1" "Acme Traders"))) Hno).
Defined.

Lemma tick_hide dt st us :
  timers st = [] →
  let w := {| page := triggerCelebration st; utterances := us |} in
  page (tick dt w)
  = if (clock st + 5000 <=? clock st + dt)%Z
    then setTimersClock [] (clock st + dt)%Z (setShowCelebration false
           (startConfetti (setShowCelebration true st)))
    else setTimersClock [((clock st + 5000)%Z, HideCelebration)]
           (clock st + dt)%Z (startConfetti (setShowCelebration true st)).
Proof.
  intros Hq. cbn zeta. unfold tick, triggerCelebration. cbn. rewrite Hq. cbn.
  by destruct (clock st + 5000 <=? clock st + dt)%Z.
Qed.

(** X10. After the last urgent item is resolved, with no other timer
    pending, the congratulation line is visible for exactly 5000 ms:
    at every earlier moment it shows, from 5000 ms on it is hidden
    while the list stays empty. *)
Theorem celebration_is_visible_for_5000ms
    (st : state) (item : UrgentWorkItem) (us : list string) (dt : Z) :
  urgentItems st = [item] → timers st = [] →
  let w := {| page := handleResolveItem (id item) st; utterances := us |} in
  celebrationVisible (page w) = true ∧
  ((0 ≤ dt < 5000)%Z → celebrationVisible (page (tick dt w)) = true) ∧
  ((5000 ≤ dt)%Z → celebrationVisible (page (tick dt w)) = false ∧
                   urgentItems (page (tick dt w)) = []).
Proof.
  intros Hl Hq. cbn zeta.
  assert (Hres : handleResolveItem (id item) st
                 = setUrgentItems [] (triggerCelebration st)).
  { unfold handleResolveItem. rewrite Hl. cbn. by rewrite String.eqb_refl. }
  rewrite Hres. split; [reflexivity|].
  unfold tick. cbn. rewrite Hq. cbn.
  split; intros Hdt.
  - replace (clock st + 5000 <=? clock st + dt)%Z with false
      by (symmetry; apply Z.leb_gt; lia).
    reflexivity.
  - replace (clock st + 5000 <=? clock st + dt)%Z with true
      by (symmetry; apply Z.leb_le; lia).
    split; reflexivity.
Qed.

Lemma celebration_is_visible_for_5000ms_witness :
  let st := Samples.opsWith [Samples.urgent "u1" "Acme Traders"] in
  let w := {| page := handleResolveItem "u1" st; utterances := [] |} in
  urgentItems st = [Samples.urgent "u1" "Acme Traders"] ∧ timers st = [] ∧
  (0 ≤ 4999 < 5000)%Z ∧ (5000 ≤ 5000)%Z ∧
  celebrationVisible (page (tick 4999 w)) = true ∧
  celebrationVisible (page (tick 5000 w)) = false.
Proof.
  cbn zeta.
  pose proof (celebration_is_visible_for_5000ms
    (Samples.opsWith [Samples.urgent "u1" "Acme Traders"])
    (Samples.urgent "u1" "Acme Traders") [] 4999 eq_refl eq_refl)
    as (_ & Hshown & _).
  pose proof (celebration_is_visible_for_5000ms
    (Samples.opsWith [Samples.urgent "u1" "Acme Traders"])
    (Samples.urgent "u1" "Acme Traders") [] 5000 eq_refl eq_refl)
    as (_ & _ & Hhidden).
  split; [reflexivity|]. split; [reflexivity|]. split; [lia|]. split; [lia|].
  split; [exact (Hshown ltac:(lia)) | exact (proj1 (Hhidden ltac:(lia)))].
Defined.


End OpsBoardFacts.

Section CardFacts.
Import OpsIntelligencePage OpsBoard.

(** X12. A card's "resolve" button does nothing when the card was
    given no [onResolve], and an action other than the three known ones
    does nothing.  The "email" and "fix" buttons open a new tab on a URL
    whose query is the encoded client name: no character of the name
    can end the query, start another parameter or leave the page's
    path. *)
Theorem card_actions_open_safe_urls
    (item : UrgentWorkItem) (hasOnResolve : bool) (action : string) :
  handleAction item false "resolve" = Nothing ∧
  handleAction item true "resolve" = Resolve (id item) ∧
  (action ≠ "resolve" → action ≠ "email" → action ≠ "fix" →
     handleAction item hasOnResolve action = Nothing) ∧
  (∃ query,
     handleAction item hasOnResolve "email"
       = WindowOpen ("/emails?client=" +:+ query) "_blank" ∧
     handleAction item hasOnResolve "fix"
       = WindowOpen ("/invoices?client=" +:+ query) "_blank" ∧
     Forall (λ c, URI.isDelimiter c = false) (URI.chars query)).
Proof.
  split; [reflexivity|]. split; [reflexivity|]. split.
  - intros H1 H2 H3. unfold handleAction.
    apply String.eqb_neq in H1, H2, H3. by rewrite H1, H2, H3.
  - exists (URI.encodeURIComponent (OpsIntelligencePage.client_name item)).
    split; [reflexivity|]. split; [reflexivity|]. apply encoded_chars_safe.
Qed.

Lemma card_actions_open_safe_urls_witness :
  "snooze" ≠ "resolve" ∧ "snooze" ≠ "email" ∧ "snooze" ≠ "fix" ∧
  handleAction (Samples.urgent "u1" "R&D Labs?") true "snooze" = Nothing ∧
  handleAction (Samples.urgent "u1" "R&D Labs?") true "email"
    = WindowOpen "/emails?client=R%26D%20Labs%3F" "_blank".
Proof.
  split; [discriminate|]. split; [discriminate|]. split; [discriminate|].
  split; [|reflexivity].
  exact (proj1 (proj2 (proj2 (card_actions_open_safe_urls
           (Samples.urgent "u1" "R&D Labs?") true "snooze")))
           ltac:(discriminate) ltac:(discriminate) ltac:(discriminate)).
Defined.

End CardFacts.

(** ** The Vendors page: charts and script modal *)

Section VendorsFacts.
Import Promise VendorsCharts.

Lemma barName_length v : length (barName v) ≤ 18.
Proof.
  unfold barName. destruct (Nat.ltb_spec 15 (length v)).
  - rewrite length_app, length_take. change (length dots) with 3. lia.
  - lia.
Qed.

(** X13. The bar chart shows the first eight vendors and no others, in
    their order: its bar at position [i] is made from the vendor at
    position [i] when [i] is below eight, and there is no bar beyond.
    Every label has at most 18 code units; a name of up to 15 code
    units is its own label, and a longer one is cut to its first 15
    code units followed by three dots.  With no analysis loaded the
    chart is empty. *)
Theorem bar_chart_labels_are_bounded
    (vs : list TopVendor) (bar : Bar) (v : list N) (i : nat) :
  chartData (Some vs) !! i
    = (if (i <? 8)%nat then toBar <$> vs !! i else None) ∧
  length (chartData (Some vs)) = Nat.min 8 (length vs) ∧
  (bar ∈ chartData (Some vs) → length (name bar) ≤ 18) ∧
  (length v ≤ 15 → barName v = v) ∧
  (15 < length v →
     barName v = take 15 v ++ dots ∧ length (barName v) = 18) ∧
  chartData None = [].
Proof.
  split; [|split; [|split; [|split; [|split]]]].
  - unfold chartData. rewrite list_lookup_fmap.
    destruct (Nat.ltb_spec i 8).
    + by rewrite lookup_take_lt.
    + by rewrite lookup_take_ge.
  - unfold chartData. by rewrite length_map, length_take.
  - unfold chartData. intros Hb. apply list_elem_of_fmap in Hb as (tv & -> & _).
    apply barName_length.
  - intros Hv. unfold barName.
    destruct (Nat.ltb_spec 15 (length v)); [lia | done].
  - intros Hv. unfold barName.
    destruct (Nat.ltb_spec 15 (length v)); [|lia].
    split; [done|]. rewrite length_app, length_take.
    change (length dots) with 3. lia.
  - reflexivity.
Qed.

(** X14. Every pie slice gets a colour, and no two slices of the pie
    share one: the pie has at most six slices and the palette six
    distinct colours; beyond six the palette would wrap around. *)
Theorem pie_slices_have_distinct_colours
    (tv : option (list TopVendor)) (i j : nat) :
  length (pieData tv) ≤ 6 ∧
  is_Some (cellColor i) ∧
  cellColor (i + 6) = cellColor i ∧
  (i < length (pieData tv) → j < length (pieData tv) → i ≠ j →
     cellColor i ≠ cellColor j).
Proof.
  assert (Hlen : length (pieData tv) ≤ 6).
  { destruct tv as [vs|]; cbn; [|lia]. rewrite length_map, length_take. lia. }
  split; [done|]. split; [|split].
  - unfold cellColor. apply lookup_lt_is_Some.
    change (length COLORS) with 6. apply Nat.mod_upper_bound. lia.
  - unfold cellColor. change (length COLORS) with 6.
    f_equal. replace (i + 6) with (i + 1 * 6) by lia.
    by rewrite Nat.Div0.mod_add.
  - intros Hi Hj Hne.
    assert (Hi6 : i < 6) by lia. assert (Hj6 : j < 6) by lia.
    clear Hi Hj Hlen.
    do 6 (destruct i as [|i]; [do 6 (destruct j as [|j];
            [first [done | vm_compute; discriminate]|]); lia|]).
    lia.
Qed.

End VendorsFacts.

Section VendorsScriptFacts.
Import Promise VendorsScript.

(** X15. A failed script request leaves the modal exactly as it was.
    A successful one stores the script and shows the modal for the
    vendor, except for a vendor whose name is empty, for which the
    script is stored but the modal stays hidden.  Closing the modal
    keeps the script, and the modal is hidden afterwards. *)
Theorem script_modal_follows_the_request
    (st : state) (vendorName reason : string) (script : Script) :
  fetchNegotiationScript vendorName (Rejected reason) st = st ∧
  negotiationScript (fetchNegotiationScript vendorName (Resolved script) st)
    = Some script ∧
  (vendorName ≠ EmptyString →
     modalShown (fetchNegotiationScript vendorName (Resolved script) st) = true) ∧
  modalShown (fetchNegotiationScript EmptyString (Resolved script) st) = false ∧
  modalShown (closeModal st) = false ∧
  negotiationScript (closeModal st) = negotiationScript st.
Proof.
  split; [reflexivity|]. split; [reflexivity|]. split; [|by repeat split].
  intros Hv. cbn. by destruct vendorName.
Qed.

Lemma script_modal_follows_the_request_witness :
  let script := {| email_subject := "Volume discount"; email_body := "Dear team" |} in
  let st := {| selectedVendor := None; negotiationScript := None |} in
  "Acme Traders" ≠ EmptyString ∧
  modalShown (fetchNegotiationScript "Acme Traders" (Resolved script) st) = true.
Proof.
  cbn zeta. split; [discriminate|].
  exact (proj1 (proj2 (proj2 (script_modal_follows_the_request
           {| selectedVendor := None; negotiationScript := None |}
           "Acme Traders" "Network Error"
           {| email_subject := "Volume discount"; email_body := "Dear team" |})))
           ltac:(discriminate)).
Defined.

End VendorsScriptFacts.

(** ** The invoice detail modal *)

Section InvoiceDetailFacts.
Import Promise InvoicesPage InvoiceDetail.

(** X16. The request for an invoice's e-mails names the invoice only
    when its id is not zero: for id 0 the parameters are empty and the
    request asks for the e-mails of all invoices. *)
Theorem emails_request_names_nonzero_ids (n m : Z) :
  (n ≠ 0%Z → Api.getEmailsParams (Some n) = {[ "invoice_id" := n ]}) ∧
  Api.getEmailsParams (Some 0%Z) = ∅ ∧
  Api.getEmailsParams None = ∅ ∧
  (Api.getEmailsParams (Some n) !! "invoice_id" = Some m ↔ n = m ∧ n ≠ 0%Z).
Proof.
  split; [|split; [reflexivity | split; [reflexivity|]]].
  - intros Hn. unfold Api.getEmailsParams.
    by destruct (Z.eqb_spec n 0).
  - unfold Api.getEmailsParams. destruct (Z.eqb_spec n 0) as [->|Hn].
    + rewrite lookup_empty. split; [done | by intros [_ ?]].
    + rewrite lookup_singleton_eq. split; [by intros [= ->] | by intros [-> _]].
Qed.

Lemma emails_request_names_nonzero_ids_witness :
  (42 ≠ 0)%Z ∧
  Api.getEmailsParams (Some 42%Z) = {[ "invoice_id" := 42%Z ]}.
Proof.
  split; [discriminate|].
  exact (proj1 (emails_request_names_nonzero_ids 42 42) ltac:(discriminate)).
Defined.

(** X17. Selecting an invoice clears the e-mail shown and asks for its
    e-mails only when its status is "needs_review".  A response is
    never matched against the selected invoice: when the user selects
    one invoice and then another that needs no review, the response to
    the first request, arriving late, is shown with the second invoice.
    A response with no e-mails, or a failed request, shows nothing. *)
Theorem late_email_response_is_shown_with_current_invoice
    (st : state) (a b : Invoice) (e : Email) (rest : list Email)
    (reason : string) :
  invoiceEmail (handleSelectInvoice a st) = None ∧
  (status a = "needs_review" →
     requests (handleSelectInvoice a st)
     = requests st ++ [Api.getEmailsParams (Some (id a))]) ∧
  (status b ≠ "needs_review" →
     requests (handleSelectInvoice b st) = requests st ∧
     let shown := emailsArrived (Resolved (Some (e :: rest)))
                    (handleSelectInvoice b (handleSelectInvoice a st)) in
     selectedInvoice shown = Some b ∧ invoiceEmail shown = Some e) ∧
  emailsArrived (Resolved (Some [])) st = st ∧
  emailsArrived (Resolved None) st = st ∧
  emailsArrived (Rejected reason) st = st.
Proof.
  split; [reflexivity|]. split; [|split; [|by repeat split]].
  - intros Ha. unfold handleSelectInvoice. cbn. by rewrite Ha.
  - intros Hb. apply String.eqb_neq in Hb.
    unfold handleSelectInvoice. cbn. rewrite Hb. done.
Qed.

End InvoiceDetailFacts.

(** ** The invoices table *)

Section InvoiceTableFacts.
Import InvoicesPage.

Lemma includes_empty s : JS.includes s EmptyString = true.
Proof. by destruct s. Qed.

(** The test applied to each invoice. *)
Lemma filteredInvoices_filter toLowerCase invoices search statusFilter :
  filteredInvoices toLowerCase invoices search statusFilter
  = List.filter
      (λ inv, (truthy (fieldMatches toLowerCase (invoice_number inv) search)
               || truthy (fieldMatches toLowerCase (vendor_name inv) search))
              && (String.eqb statusFilter "all"
                  || String.eqb (status inv) statusFilter))
      invoices.
Proof.
  unfold filteredInvoices. apply filter_ext. intros inv.
  unfold matchesSearch, matchesStatus.
  by rewrite truthy_andAlso, truthy_orElse.
Qed.

Lemma filter_sublist_impl {A} (f g : A → bool) (l : list A) :
  (∀ x, f x = true → g x = true) →
  List.filter f l `sublist_of` List.filter g l.
Proof.
  intros Hfg. induction l as [|a l IH]; [done|]. cbn.
  destruct (f a) eqn:Hf.
  - rewrite (Hfg a Hf). by constructor.
  - destruct (g a); [by constructor | done].
Qed.

(** X18. With the search box empty and the status filter on "all" the
    table lists, in their order, exactly the invoices that have an
    invoice number or a vendor name. *)
Theorem empty_search_lists_named_invoices
    (toLowerCase : string → string) (invoices : list Invoice) :
  JS.foldsAscii toLowerCase →
  filteredInvoices toLowerCase invoices EmptyString "all"
  = List.filter
      (λ inv, match invoice_number inv, vendor_name inv with
              | None, None => false
              | _, _ => true
              end)
      invoices.
Proof.
  intros Hfold. rewrite filteredInvoices_filter. apply filter_ext. intros inv.
  unfold fieldMatches. rewrite (Hfold EmptyString eq_refl). cbn [JS.asciiLower].
  destruct (invoice_number inv), (vendor_name inv);
    rewrite ?includes_empty; reflexivity.
Qed.

Lemma empty_search_lists_named_invoices_witness :
  let acme := Samples.invoice (Some "INV-001") (Some "Acme Traders") "processed" in
  let blank := Samples.invoice None None "processed" in
  JS.foldsAscii JS.asciiLower ∧
  filteredInvoices JS.asciiLower [blank; acme] EmptyString "all" = [acme].
Proof.
  cbn zeta.
  assert (Hfold : JS.foldsAscii JS.asciiLower) by (intros s _; reflexivity).
  split; [exact Hfold|].
  exact (empty_search_lists_named_invoices JS.asciiLower
           [Samples.invoice None None "processed";
            Samples.invoice (Some "INV-001") (Some "Acme Traders") "processed"]
           Hfold).
Defined.

(** X19. For search texts of ASCII characters, typing further
    characters into the search box never adds a row: the invoices
    listed for a longer search text are among those listed for its
    beginning, in the same order, whatever the invoice fields hold.
    For every search text, a status filter lists a part of what "all"
    lists, which is a part of the invoices, and filtering the listed
    invoices again changes nothing. *)
Theorem longer_search_never_adds_rows
    (toLowerCase : string → string)
    (invoices : list Invoice) (search more statusFilter : string) :
  JS.foldsAscii toLowerCase →
  (JS.isAscii search = true → JS.isAscii more = true →
     filteredInvoices toLowerCase invoices (search +:+ more) statusFilter
       `sublist_of` filteredInvoices toLowerCase invoices search statusFilter) ∧
  filteredInvoices toLowerCase invoices search statusFilter
    `sublist_of` filteredInvoices toLowerCase invoices search "all" ∧
  filteredInvoices toLowerCase invoices search "all" `sublist_of` invoices ∧
  filteredInvoices toLowerCase
    (filteredInvoices toLowerCase invoices search statusFilter)
    search statusFilter
  = filteredInvoices toLowerCase invoices search statusFilter.
Proof.
  intros Hfold. rewrite !filteredInvoices_filter. split; [|split; [|split]].
  - intros Hs Hm.
    assert (Hfield : ∀ field,
              truthy (fieldMatches toLowerCase field (search +:+ more)) = true →
              truthy (fieldMatches toLowerCase field search) = true).
    { intros field. rewrite !truthy_fieldMatches.
      intros (s & Hf & Hinc). exists s. split; [done|].
      rewrite (Hfold (search +:+ more)) in Hinc
        by (by rewrite isAscii_append, Hs, Hm).
      rewrite (Hfold search Hs).
      apply includes_spec in Hinc as (pre & post & Heq).
      apply includes_spec.
      exists pre, (JS.asciiLower more +:+ post).
      by rewrite Heq, asciiLower_append, !append_assoc. }
    apply filter_sublist_impl. intros inv.
    rewrite !andb_true_iff, !orb_true_iff. intros [[H|H] Hst];
      (split; [|done]); [left | right]; by apply Hfield.
  - apply filter_sublist_impl. intros inv.
    rewrite !andb_true_iff. intros [H _]. by split.
  - generalize invoices. intros l. induction l as [|a l IH]; [done|]. cbn.
    case_match; by constructor.
  - generalize invoices. intros l. induction l as [|a l IH]; [done|]. cbn.
    destruct (_ && _) eqn:Hk; [|done]. cbn. rewrite Hk. by f_equal.
Qed.

Lemma longer_search_never_adds_rows_witness :
  let invs := [Samples.invoice (Some "INV-001") (Some "Acme Traders") "processed";
               Samples.invoice (Some "INV-002") (Some "Acme Tools") "processed"] in
  JS.foldsAscii JS.asciiLower ∧
  JS.isAscii "acme t" = true ∧ JS.isAscii "r" = true ∧
  filteredInvoices JS.asciiLower invs "acme t" "all" = invs ∧
  filteredInvoices JS.asciiLower invs ("acme t" +:+ "r") "all"
    `sublist_of` filteredInvoices JS.asciiLower invs "acme t" "all".
Proof.
  cbn zeta.
  assert (Hfold : JS.foldsAscii JS.asciiLower) by (intros s _; reflexivity).
  split; [exact Hfold|]. split; [reflexivity|]. split; [reflexivity|].
  split; [reflexivity|].
  exact (proj1 (longer_search_never_adds_rows JS.asciiLower
           [Samples.invoice (Some "INV-001") (Some "Acme Traders") "processed";
            Samples.invoice (Some "INV-002") (Some "Acme Tools") "processed"]
           "acme t" "r" "all" Hfold) eq_refl eq_refl).
Defined.

(** X20. The search ignores the case of the letters A to Z in the
    search text: two search texts of ASCII characters that differ at
    most in the case of their letters list the same invoices, whatever
    the invoice fields hold. *)
Theorem search_ignores_case
    (toLowerCase : string → string)
    (invoices : list Invoice) (s1 s2 statusFilter : string) :
  JS.foldsAscii toLowerCase →
  JS.isAscii s1 = true → JS.isAscii s2 = true →
  JS.sameUpToCase s1 s2 = true →
  filteredInvoices toLowerCase invoices s1 statusFilter
  = filteredInvoices toLowerCase invoices s2 statusFilter.
Proof.
  intros Hfold H1 H2 Hsame. apply asciiLower_sameUpToCase in Hsame.
  rewrite !filteredInvoices_filter. apply filter_ext. intros inv.
  unfold fieldMatches. by rewrite (Hfold s1 H1), (Hfold s2 H2), Hsame.
Qed.

Lemma search_ignores_case_witness :
  let invs := [Samples.invoice (Some "INV-001") (Some "Acme Traders") "processed";
               Samples.invoice (Some "INV-002") None "needs_review"] in
  JS.foldsAscii JS.asciiLower ∧
  JS.isAscii "ACME" = true ∧ JS.isAscii "acme" = true ∧
  JS.sameUpToCase "ACME" "acme" = true ∧
  filteredInvoices JS.asciiLower invs "ACME" "all"
    = filteredInvoices JS.asciiLower invs "acme" "all" ∧
  filteredInvoices JS.asciiLower invs "acme" "all"
  = [Samples.invoice (Some "INV-001") (Some "Acme Traders") "processed"].
Proof.
  cbn zeta.
  assert (Hfold : JS.foldsAscii JS.asciiLower) by (intros s _; reflexivity).
  split; [exact Hfold|]. split; [reflexivity|]. split; [reflexivity|].
  split; [reflexivity|]. split; [|reflexivity].
  exact (search_ignores_case JS.asciiLower _ "ACME" "acme" "all"
           Hfold eq_refl eq_refl eq_refl).
Defined.

End InvoiceTableFacts.

(** ** The name of the audit pack *)

Section AuditDownloadFacts.
Import AuditDownload.

Lemma beforeFirst_split sep date rest :
  Forall (λ c, c ≠ sep) (URI.chars date) →
  beforeFirst sep (date +:+ String sep rest) = date.
Proof.
  induction date as [|c date IH]; intros Hd; simpl.
  - by rewrite Ascii.eqb_refl.
  - inversion Hd as [|? ? Hc Hd']; subst.
    apply Ascii.eqb_neq in Hc. rewrite Hc. f_equal. by apply IH.
Qed.

(** X21. For a timestamp made of a date part without the letter T, a T
    and a time part, the audit pack is saved as audit_pack_ followed by
    the date part and .zip, whatever the time part; a timestamp
    without any T goes into the name whole. *)
Theorem audit_pack_is_named_after_the_date (date time iso : string) :
  (Forall (λ c, c ≠ "T"%char) (URI.chars date) →
     downloadName (date +:+ "T" +:+ time) = "audit_pack_" +:+ date +:+ ".zip") ∧
  (Forall (λ c, c ≠ "T"%char) (URI.chars iso) →
     downloadName iso = "audit_pack_" +:+ iso +:+ ".zip").
Proof.
  split; intros Hd; unfold downloadName.
  - change ("T" +:+ time) with (String "T" time).
    by rewrite beforeFirst_split.
  - f_equal. f_equal. induction iso as [|c iso IH]; [done|].
    inversion Hd as [|? ? Hc Hd']; subst. cbn.
    apply Ascii.eqb_neq in Hc. rewrite Hc. f_equal. by apply IH.
Qed.

Lemma audit_pack_is_named_after_the_date_witness :
  Forall (λ c, c ≠ "T"%char) (URI.chars "2025-01-15") ∧
  downloadName "2025-01-15T09:30:00.000Z" = "audit_pack_2025-01-15.zip".
Proof.
  assert (Hd : Forall (λ c, c ≠ "T"%char) (URI.chars "2025-01-15"))
    by (repeat constructor; discriminate).
  split; [exact Hd|].
  exact (proj1 (audit_pack_is_named_after_the_date
                  "2025-01-15" "09:30:00.000Z" "") Hd).
Defined.

End AuditDownloadFacts.

(** ** The properties above on concrete inputs *)

Section Witnesses.

Lemma log_buffer_never_exceeds_200_witness :
  forallb (GhostTerminalRuns.historyWithin 200) MoreSamples.session = true ∧
  length (GhostTerminal.logs GhostTerminal.initial) ≤ 200 ∧
  length (GhostTerminal.logs
            (GhostTerminal.run MoreSamples.session GhostTerminal.initial)) ≤ 200.
Proof.
  assert (H0 : length (GhostTerminal.logs GhostTerminal.initial) ≤ 200)
    by (cbn; lia).
  split; [reflexivity|]. split; [exact H0|].
  exact (log_buffer_never_exceeds_200 MoreSamples.session
           GhostTerminal.initial eq_refl H0).
Defined.

Lemma oversized_history_is_trimmed_by_next_entry_witness :
  200 < length MoreSamples.longHistory ∧
  length (GhostTerminal.logs
    (GhostTerminal.onmessage Samples.iso
       (GhostTerminal.Log (Samples.entry "tax_agent" "Starting GST validation"))
       (GhostTerminal.onmessage Samples.iso
          (GhostTerminal.History (Some MoreSamples.longHistory))
          GhostTerminal.initial))) = 200.
Proof.
  assert (Hl : 200 < length MoreSamples.longHistory)
    by (apply Nat.ltb_lt; reflexivity).
  split; [exact Hl|].
  exact (proj2 (proj2 (oversized_history_is_trimmed_by_next_entry
           GhostTerminal.initial Samples.iso MoreSamples.longHistory
           (Samples.entry "tax_agent" "Starting GST validation") Hl))).
Defined.

Lemma active_agents_change_only_on_log_messages_witness :
  forallb (λ e, negb (GhostTerminalRuns.isLogMessage e)) MoreSamples.outage
    = true ∧
  GhostTerminal.activeAgents
    (GhostTerminal.run MoreSamples.outage Samples.taxActive)
  = GhostTerminal.activeAgents Samples.taxActive.
Proof.
  split; [reflexivity|].
  exact (active_agents_change_only_on_log_messages MoreSamples.outage
           Samples.taxActive eq_refl).
Defined.

Lemma ref_holds_latest_socket_witness :
  let st := GhostTerminal.run
              [GhostTerminal.Open; GhostTerminal.WsClose Samples.iso;
               GhostTerminal.Tick 3000] GhostTerminal.initial in
  GhostTerminal.isOpen st = true ∧ GhostTerminal.sockets st = 2 ∧
  GhostTerminal.closeCalls (GhostTerminal.step st GhostTerminal.Close) = [1].
Proof.
  cbn zeta. split; [reflexivity|]. split; [reflexivity|].
  exact (proj2 (ref_holds_latest_socket
           [GhostTerminal.Open; GhostTerminal.WsClose Samples.iso;
            GhostTerminal.Tick 3000]) eq_refl).
Defined.

Lemma processing_time_is_elapsed_time_witness :
  GhostTerminal.clock MoreSamples.laterViewer ≠ 0%Z ∧
  GhostTerminal.processingTime
    (GhostTerminal.run
       (GhostTerminal.WsMessage Samples.iso
          (GhostTerminal.ProcessingStart "invoice.pdf")
        :: GhostTerminalRuns.waits [1200; 300]%Z
        ++ [GhostTerminal.WsMessage Samples.iso GhostTerminal.ProcessingComplete])
       MoreSamples.laterViewer)
  = Some 1500%Z.
Proof.
  assert (Hc : GhostTerminal.clock MoreSamples.laterViewer ≠ 0%Z)
    by discriminate.
  split; [exact Hc|].
  exact (proj1 (processing_time_is_elapsed_time MoreSamples.laterViewer
           Samples.iso Samples.iso "invoice.pdf" [1200; 300]%Z) Hc).
Defined.

Lemma board_columns_hold_clients_by_phase_witness :
  let cs := [MoreSamples.client "c1" "review";
             MoreSamples.client "c2" "archived"] in
  OpsBoard.groupedClients (Some cs) !! "review"
    = Some [MoreSamples.client "c1" "review"] ∧
  "review" ∈ OpsBoard.phases ∧
  (OpsBoard.phase (MoreSamples.client "c2" "archived") ∉ OpsBoard.phases) ∧
  (MoreSamples.client "c2" "archived" ∉ [MoreSamples.client "c1" "review"]).
Proof.
  cbn zeta.
  assert (Hcol : OpsBoard.groupedClients
            (Some [MoreSamples.client "c1" "review";
                   MoreSamples.client "c2" "archived"]) !! "review"
            = Some [MoreSamples.client "c1" "review"]) by reflexivity.
  assert (Hno : OpsBoard.phase (MoreSamples.client "c2" "archived")
                  ∉ OpsBoard.phases).
  { intros H. cbn in H.
    repeat (apply elem_of_cons in H as [H|H]; [discriminate H|]).
    by apply elem_of_nil in H. }
  pose proof (board_columns_hold_clients_by_phase
    [MoreSamples.client "c1" "review"; MoreSamples.client "c2" "archived"]
    (MoreSamples.client "c2" "archived") "review"
    [MoreSamples.client "c1" "review"]) as (Hin & _ & Hout).
  split; [exact Hcol|]. split; [exact (proj2 (Hin Hcol))|].
  split; [exact Hno|]. exact (Hout Hno "review" _ Hcol).
Defined.


Lemma bar_chart_labels_are_bounded_witness :
  let long := JS.units "Reliance Industries Limited" in
  let accented :=
    [67; 114; 233; 100; 105; 116; 32; 65; 103; 114; 105; 99; 111; 108; 101]%N in
  15 < length long ∧
  VendorsCharts.barName long = JS.units "Reliance Indust..." ∧
  length accented ≤ 15 ∧
  VendorsCharts.barName accented = accented.
Proof.
  cbn zeta.
  assert (H1 : 15 < length (JS.units "Reliance Industries Limited"))
    by (apply Nat.ltb_lt; reflexivity).
  assert (H2 : length [67; 114; 233; 100; 105; 116; 32; 65; 103; 114; 105;
                       99; 111; 108; 101]%N ≤ 15)
    by (apply Nat.leb_le; reflexivity).
  pose proof (bar_chart_labels_are_bounded MoreSamples.sixVendors
    {| VendorsCharts.name := []; VendorsCharts.spend := 0;
       VendorsCharts.invoices := 0 |}
    (JS.units "Reliance Industries Limited") 0)
    as (_ & _ & _ & _ & Hlong & _).
  pose proof (bar_chart_labels_are_bounded MoreSamples.sixVendors
    {| VendorsCharts.name := []; VendorsCharts.spend := 0;
       VendorsCharts.invoices := 0 |}
    [67; 114; 233; 100; 105; 116; 32; 65; 103; 114; 105; 99; 111; 108; 101]%N 0)
    as (_ & _ & _ & Hshort & _).
  split; [exact H1|]. split; [exact (proj1 (Hlong H1))|].
  split; [exact H2 | exact (Hshort H2)].
Defined.

Lemma pie_slices_have_distinct_colours_witness :
  0 < length (VendorsCharts.pieData (Some MoreSamples.sixVendors)) ∧
  5 < length (VendorsCharts.pieData (Some MoreSamples.sixVendors)) ∧
  0 ≠ 5 ∧
  VendorsCharts.cellColor 0 ≠ VendorsCharts.cellColor 5.
Proof.
  assert (H0 : 0 < length (VendorsCharts.pieData (Some MoreSamples.sixVendors)))
    by (apply Nat.ltb_lt; reflexivity).
  assert (H5 : 5 < length (VendorsCharts.pieData (Some MoreSamples.sixVendors)))
    by (apply Nat.ltb_lt; reflexivity).
  split; [exact H0|]. split; [exact H5|]. split; [discriminate|].
  exact (proj2 (proj2 (proj2 (pie_slices_have_distinct_colours
           (Some MoreSamples.sixVendors) 0 5))) H0 H5 ltac:(discriminate)).
Defined.

Lemma late_email_response_is_shown_with_current_invoice_witness :
  let a := MoreSamples.invoiceNo 7 "needs_review" in
  let b := MoreSamples.invoiceNo 8 "processed" in
  InvoicesPage.status a = "needs_review" ∧
  InvoicesPage.status b ≠ "needs_review" ∧
  InvoiceDetail.requests (InvoiceDetail.handleSelectInvoice a InvoiceDetail.initial)
    = [{[ "invoice_id" := 7%Z ]}] ∧
  InvoiceDetail.invoiceEmail
    (InvoiceDetail.emailsArrived (Promise.Resolved (Some [MoreSamples.email 7]))
       (InvoiceDetail.handleSelectInvoice b
          (InvoiceDetail.handleSelectInvoice a InvoiceDetail.initial)))
  = Some (MoreSamples.email 7).
Proof.
  cbn zeta.
  assert (Hb : InvoicesPage.status (MoreSamples.invoiceNo 8 "processed")
                 ≠ "needs_review") by discriminate.
  pose proof (late_email_response_is_shown_with_current_invoice
    InvoiceDetail.initial (MoreSamples.invoiceNo 7 "needs_review")
    (MoreSamples.invoiceNo 8 "processed") (MoreSamples.email 7) []
    "Network Error") as (_ & Hreq & Hlate & _).
  split; [reflexivity|]. split; [exact Hb|].
  split; [exact (Hreq eq_refl)|].
  exact (proj2 (proj2 (Hlate Hb))).
Defined.

End Witnesses.
